(** * ConfigDaev shell emulator: the virtual file system and the command shell

    A shallow embedding of [ConfigDaev/emulator.py].  Python text is modelled
    by [string], one [ascii] per character (code points U+0000 to U+00FF), a
    [dict] by stdpp's [gmap], and a raised exception by the [Raise] outcome of
    a [result]. *)

From Stdlib Require Import String Ascii List DecimalString.
From stdpp Require Import gmap strings list sorting.

Local Open Scope string_scope.

(** ** The Python string builtins the emulator calls *)

Module PyStr.

(** [s.split(sep)] for a one-character separator: never the empty list. *)
Fixpoint split (sep : ascii) (s : string) : list string :=
  match s with
  | EmptyString => [ EmptyString ]
  | String c s' =>
      if decide (c = sep) then EmptyString :: split sep s'
      else match split sep s' with
           | [] => [ String c EmptyString ]
           | w :: ws => String c w :: ws
           end
  end.

(** [sep.join(l)]. *)
Definition join (sep : string) (l : list string) : string :=
  String.concat sep l.

(** [s.lstrip(chars)] and [s.rstrip(chars)], the character set being
    given by its membership test. *)
Fixpoint lstrip (p : ascii → bool) (s : string) : string :=
  match s with
  | EmptyString => EmptyString
  | String c s' => if p c then lstrip p s' else s
  end.

Fixpoint rstrip (p : ascii → bool) (s : string) : string :=
  match s with
  | EmptyString => EmptyString
  | String c s' =>
      match rstrip p s' with
      | EmptyString => if p c then EmptyString else String c EmptyString
      | r => String c r
      end
  end.

Definition strip (p : ascii → bool) (s : string) : string :=
  rstrip p (lstrip p s).

Definition is_slash (c : ascii) : bool := bool_decide (c = "/"%char).

(** [str.isspace] on one character below U+0100: TAB, LF, VT, FF, CR,
    FS, GS, RS, US, SPACE, NEL and NBSP. *)
Definition is_space (c : ascii) : bool :=
  let n := nat_of_ascii c in
  (((9 <=? n) && (n <=? 13)) || ((28 <=? n) && (n <=? 32))
   || (n =? 133) || (n =? 160))%nat.

(** The line boundaries of [str.splitlines] below U+0100: LF, VT, FF, CR,
    FS, GS, RS and NEL (CR LF counts once). *)
Definition is_linebreak (c : ascii) : bool :=
  let n := nat_of_ascii c in
  (((10 <=? n) && (n <=? 13)) || ((28 <=? n) && (n <=? 30))
   || (n =? 133))%nat.

Definition snoc (s : string) (c : ascii) : string := s ++ String c EmptyString.

Definition is_empty (s : string) : bool :=
  match s with EmptyString => true | _ => false end.

(** [s.split()]: the maximal runs of non-space characters.  [acc] is the
    word being read. *)
Fixpoint split_ws_from (acc : string) (s : string) : list string :=
  match s with
  | EmptyString => if is_empty acc then [] else [ acc ]
  | String c s' =>
      if is_space c
      then (if is_empty acc then split_ws_from EmptyString s'
            else acc :: split_ws_from EmptyString s')
      else split_ws_from (snoc acc c) s'
  end.

Definition split_ws (s : string) : list string := split_ws_from EmptyString s.

(** [s.strip()] with no argument strips white space. *)
Definition strip_ws (s : string) : string := strip is_space s.

(** [s.splitlines()]: no line for an empty remainder.  [acc] is the
    line being read. *)
Fixpoint splitlines_from (acc : string) (s : string) : list string :=
  match s with
  | EmptyString => if is_empty acc then [] else [ acc ]
  | String c s' =>
      if is_linebreak c then
        match s' with
        | String c' s'' =>
            if bool_decide (c = "013"%char) && bool_decide (c' = "010"%char)
            then acc :: splitlines_from EmptyString s''
            else acc :: splitlines_from EmptyString s'
        | EmptyString => [ acc ]
        end
      else splitlines_from (snoc acc c) s'
  end.

Definition splitlines (s : string) : list string :=
  splitlines_from EmptyString s.

(** [str(n)] for a non-negative integer. *)
Definition str_of_nat (n : nat) : string :=
  NilZero.string_of_uint (Nat.to_uint n).

(** What [print(a1, ..., an)] writes before its newline: the arguments'
    texts joined by single spaces. *)
Definition print_text (args : list string) : string := join " " args.

End PyStr.

(** ** Exceptions and outcomes *)

(** The exceptions the emulator raises itself ([FileNotFoundError], with its
    message) or provokes in the interpreter. *)
Inductive exception : Type :=
  | FileNotFoundError (msg : string)
  | KeyError (key : string)
  | TypeError (msg : string)
  | AttributeError (msg : string)
  | EOFError
  | OtherError (name msg : string)
  | UnicodeEncodeError (msg : string).

Inductive result (A : Type) : Type :=
  | Ok (a : A)
  | Raise (e : exception).

Arguments Ok {A} a.
Arguments Raise {A} e.

(** Sequencing: an exception ends the computation. *)
Global Instance result_bind : MBind result := λ A B k r,
  match r with
  | Ok a => k a
  | Raise e => Raise e
  end.

Global Instance result_ret : MRet result := λ A a, Ok a.

(** ** The directory tree *)

(** A value of the tree: [None] for a file, a nested [dict] for a folder. *)
#[warnings="-register-all"] Inductive node : Type :=
  | File
  | Dir (children : gmap string node).

Definition is_folder (d : gmap string node) (name : string) : bool :=
  match d !! name with Some (Dir _) => true | _ => false end.

Definition is_file (d : gmap string node) (name : string) : bool :=
  match d !! name with Some File => true | _ => false end.

(** [d.keys()]. *)
Definition keys (d : gmap string node) : list string := (map_to_list d).*1.

(** [sorted(l)] on a list of strings: ascending by code points. *)
Definition sorted (l : list string) : list string := merge_sort String.le l.

(** An opened archive: [z.namelist()] and, for a name,
    [z.read(name).decode('utf-8')], which may raise. *)
Record archive : Type := {
  namelist : list string;
  read_text : string → result string
}.

Record VirtualFileSystem : Type := {
  zip_file_path : string;
  current_dir : string;
  fs : gmap string node;
  files_content : gmap string string
}.

Definition set_current_dir (cd : string) (v : VirtualFileSystem) :=
  {| zip_file_path := zip_file_path v; current_dir := cd;
     fs := fs v; files_content := files_content v |}.

Definition none_attr (attr : string) : exception :=
  AttributeError ("'NoneType' object has no attribute '" ++ attr ++ "'").
Definition none_subscript : exception :=
  TypeError "'NoneType' object is not subscriptable".
Definition none_assign : exception :=
  TypeError "'NoneType' object does not support item assignment".

(** *** load_zip *)

(** One archive entry, lines 20 to 24: [d] walks down [parts[:-1]] with
    [setdefault], then the last part, when not empty, is set to [None] in
    the dictionary reached.  The function returns the dictionary [d]
    started from, as the in-place updates leave it.  A [None] met on the
    way is kept by [setdefault] and becomes [d]: the next use of [d]
    raises. *)
Fixpoint add_entry (dirparts : list string) (final : string)
    (d : gmap string node) : result (gmap string node) :=
  match dirparts with
  | [] => Ok (if PyStr.is_empty final then d else <[final := File]> d)
  | part :: rest =>
      match default (Dir ∅) (d !! part) with
      | Dir sub =>
          sub' ← add_entry rest final sub;
          Ok (<[part := Dir sub']> d)
      | File =>
          match rest with
          | _ :: _ => Raise (none_attr "setdefault")
          | [] => if PyStr.is_empty final then Ok d else Raise none_assign
          end
      end
  end.

(** The loop over [z.namelist()], lines 18 to 25, on the pair of
    [self.fs] and [self.files_content]. *)
Fixpoint load_entries (z : archive) (names : list string)
    (st : gmap string node * gmap string string)
    : result (gmap string node * gmap string string) :=
  match names with
  | [] => Ok st
  | file :: names' =>
      let parts := PyStr.split "/" file in
      tree ← add_entry (removelast parts) (List.last parts EmptyString) st.1;
      if PyStr.is_empty (List.last parts EmptyString)
      then load_entries z names' (tree, st.2)
      else
        text ← read_text z file;
        load_entries z names' (tree, <[file := text]> st.2)
  end.

(** [VirtualFileSystem(zip_file_path)] on an archive that opens as [z]:
    an exception of [load_zip] leaves no object. *)
Definition new_vfs (path : string) (z : archive) : result VirtualFileSystem :=
  st ← load_entries z (namelist z) (∅, ∅);
  Ok {| zip_file_path := path; current_dir := "/";
        fs := st.1; files_content := st.2 |}.

(** *** list_dir *)

(** [dirs[part]] where [dirs] is a dictionary or [None]. *)
Definition subscript (dirs : node) (part : string) : result node :=
  match dirs with
  | File => Raise none_subscript
  | Dir d =>
      match d !! part with
      | Some x => Ok x
      | None => Raise (KeyError part)
      end
  end.

(** The loop of lines 30 to 32. *)
Fixpoint walk (parts : list string) (dirs : node) : result node :=
  match parts with
  | [] => Ok dirs
  | part :: rest =>
      if PyStr.is_empty part then walk rest dirs
      else (dirs' ← subscript dirs part; walk rest dirs')
  end.

(** The node the current directory string leads to. *)
Definition resolve (v : VirtualFileSystem) : result node :=
  walk (PyStr.split "/" (PyStr.strip PyStr.is_slash (current_dir v)))
       (Dir (fs v)).

Definition folders_of (d : gmap string node) : list string :=
  sorted (List.filter (is_folder d) (keys d)).

Definition files_of (d : gmap string node) : list string :=
  sorted (List.filter (is_file d) (keys d)).

Definition list_dir (v : VirtualFileSystem) : result (list string) :=
  dirs ← resolve v;
  match dirs with
  | File => Raise (none_attr "keys")
  | Dir d => Ok (folders_of d ++ files_of d)%list
  end.

(** *** change_dir, current_path, read_file *)

(** Line 41 and its guard: the path without its last segment, or the root. *)
Definition parent_dir (cd : string) : string :=
  let up := PyStr.join "/" (removelast (PyStr.split "/" cd)) in
  if PyStr.is_empty up then "/" else up.

(** The outcome and the object afterwards. *)
Definition change_dir (path : string) (v : VirtualFileSystem)
    : result unit * VirtualFileSystem :=
  if decide (path = "..") then
    (Ok tt, set_current_dir (parent_dir (current_dir v)) v)
  else
    match list_dir v with
    | Raise e => (Raise e, v)
    | Ok listing =>
        if decide (path ∈ listing) then
          (Ok tt,
           set_current_dir
             (current_dir v ++ PyStr.strip PyStr.is_slash ("/" ++ path)) v)
        else (Raise (FileNotFoundError ("No such directory: " ++ path)), v)
    end.

Definition current_path (v : VirtualFileSystem) : string := current_dir v.

Definition read_file (file_path : string) (v : VirtualFileSystem)
    : result (list string) :=
  let full_path :=
    PyStr.strip PyStr.is_slash
      (PyStr.strip PyStr.is_slash (current_dir v) ++ "/" ++ file_path) in
  match files_content v !! full_path with
  | Some text => Ok (PyStr.splitlines text)
  | None => Raise (FileNotFoundError ("No such file: " ++ file_path))
  end.

(** A run of [change_dir] calls that stops at the first exception. *)
Fixpoint change_dirs (paths : list string) (v : VirtualFileSystem)
    : result unit * VirtualFileSystem :=
  match paths with
  | [] => (Ok tt, v)
  | p :: ps =>
      match change_dir p v with
      | (Ok _, v') => change_dirs ps v'
      | (Raise e, v') => (Raise e, v')
      end
  end.

(** ** The command shell *)

(** What reaches the terminal: the text of a [print] call that ran to
    its end (its newline left out), the prompt of an [input] call, or
    what a [print] call had written when it raised. *)
Inductive event : Type :=
  | Printed (text : string)
  | Prompted (text : string)
  | Unfinished (text : string).

(** The encoding of the terminal: it has every ASCII character and the
    further characters [encodes] tells; [encode_error] is the text of
    the [UnicodeEncodeError] raised for a text it cannot encode. *)
Record terminal : Type := {
  encodes : ascii → bool;
  encode_error : string → string
}.

(** The shell with its surroundings: [self.vfs], the module's global
    [command_history], the terminal with what was written to it, and
    the local time as [strftime("%a %b %d %H:%M:%S %Y")] gives it. *)
Record world : Type := {
  vfs : VirtualFileSystem;
  command_history : list string;
  stdout : list event;
  now_text : string;
  tty : terminal
}.

Definition newline : string := String "010" EmptyString.

Definition emit (e : event) (w : world) : world :=
  {| vfs := vfs w; command_history := command_history w;
     stdout := (stdout w ++ [ e ])%list; now_text := now_text w;
     tty := tty w |}.

Definition record_command (command : string) (w : world) : world :=
  {| vfs := vfs w; command_history := (command_history w ++ [ command ])%list;
     stdout := stdout w; now_text := now_text w; tty := tty w |}.

Definition set_vfs (v : VirtualFileSystem) (w : world) : world :=
  {| vfs := v; command_history := command_history w;
     stdout := stdout w; now_text := now_text w; tty := tty w |}.

Definition is_ascii (c : ascii) : bool := (nat_of_ascii c <? 128)%nat.

Definition encodable (w : world) (c : ascii) : bool :=
  encodes (tty w) c || is_ascii c.

(** A text the terminal can encode: one [write] of it succeeds. *)
Fixpoint writable (w : world) (s : string) : bool :=
  match s with
  | EmptyString => true
  | String c s' => encodable w c && writable w s'
  end.

(** The texts [print(a1, ..., an)] writes, one [write] each: the
    arguments with a space between two of them, then the newline. *)
Fixpoint print_pieces (args : list string) : list string :=
  match args with
  | [] => [ newline ]
  | a :: rest =>
      match rest with
      | [] => [ a; newline ]
      | _ :: _ => a :: " " :: print_pieces rest
      end
  end.

(** Writing texts in order until one cannot be encoded: what was
    written, and the text that was refused, if any. *)
Fixpoint write_pieces (w : world) (pieces : list string)
    : string * option string :=
  match pieces with
  | [] => (EmptyString, None)
  | piece :: rest =>
      if writable w piece then
        let '(written, refused) := write_pieces w rest in
        (piece ++ written, refused)
      else (EmptyString, Some piece)
  end.

(** [print(a1, ..., an)]: it raises [UnicodeEncodeError] at the first
    text the terminal cannot encode, what was written before staying
    written. *)
Definition print (args : list string) (w : world) : result unit * world :=
  match write_pieces w (print_pieces args) with
  | (_, None) => (Ok tt, emit (Printed (PyStr.print_text args)) w)
  | (written, Some piece) =>
      (Raise (UnicodeEncodeError (encode_error (tty w) piece)),
       if PyStr.is_empty written then w else emit (Unfinished written) w)
  end.

(** The line [print(i + 1, " ", command_history[i])] writes. *)
Definition history_line (i : nat) (command : string) : string :=
  PyStr.print_text [ PyStr.str_of_nat (i + 1); " "; command ].

(** The loop of lines 103 and 104, from index [i] on. *)
Fixpoint print_history (i : nat) (history : list string) (w : world)
    : result unit * world :=
  match history with
  | [] => (Ok tt, w)
  | command :: rest =>
      match print [ PyStr.str_of_nat (i + 1); " "; command ] w with
      | (Ok _, w') => print_history (S i) rest w'
      | (Raise e, w') => (Raise e, w')
      end
  end.

Definition handle_history (w : world) : result unit * world :=
  print_history 0 (command_history w) w.

Definition handle_date (w : world) : result unit * world :=
  print [ now_text w ] w.

Section Shell.

(** Python's [repr] on a string, which [str] of a [KeyError] shows. *)
Variable repr : string → string.

(** [str(e)]. *)
Definition str_exc (e : exception) : string :=
  match e with
  | FileNotFoundError msg => msg
  | KeyError key => repr key
  | TypeError msg => msg
  | AttributeError msg => msg
  | EOFError => "EOF when reading a line"
  | OtherError _ msg => msg
  | UnicodeEncodeError msg => msg
  end.

(** The body of the [try], lines 81 to 95; [parts] is not empty there. *)
Definition dispatch (parts : list string) (w : world) : result unit * world :=
  match parts with
  | [] => (Ok tt, w)
  | cmd :: args =>
      if decide (cmd = "ls") then
        match list_dir (vfs w) with
        | Ok listing => print [ PyStr.join newline listing ] w
        | Raise e => (Raise e, w)
        end
      else if decide (cmd = "pwd") then
        print [ current_path (vfs w) ] w
      else if decide (cmd = "cd") then
        match args with
        | arg :: _ =>
            let '(r, v') := change_dir arg (vfs w) in (r, set_vfs v' w)
        | [] => print [ "Usage: cd <directory>" ] w
        end
      else if decide (cmd = "history") then handle_history w
      else if decide (cmd = "date") then handle_date w
      else print [ "Command not found: " ++ cmd ] w
  end.

(** The two [except] clauses, lines 96 to 99: their [print] is outside
    the [try], and what it raises leaves [process_command]. *)
Definition handle (e : exception) (w : world) : result unit * world :=
  match e with
  | FileNotFoundError _ => print [ str_exc e ] w
  | _ => print [ "Error: " ++ str_exc e ] w
  end.

Definition process_command (command : string) (w : world)
    : result unit * world :=
  let parts := PyStr.split_ws command in
  let w := record_command command w in
  match parts with
  | [] => (Ok tt, w)
  | _ :: _ =>
      match dispatch parts w with
      | (Ok _, w') => (Ok tt, w')
      | (Raise e, w') => handle e w'
      end
  end.

(** The prompt of [input]: it is written to the terminal as a whole. *)
Definition prompt (text : string) (w : world) : result unit * world :=
  if writable w text then (Ok tt, emit (Prompted text) w)
  else (Raise (UnicodeEncodeError (encode_error (tty w) text)), w).

(** [start] on the lines the terminal will supply; [prefix] is empty
    for [VirtualShell] and [username@computer_name:] for the shell of
    [startConsole].  [input] raises [EOFError] when no line is left, and
    an exception that leaves [process_command] ends the loop. *)
Fixpoint start (prefix : string) (inputs : list string) (w : world)
    : result unit * world :=
  match prompt (prefix ++ current_path (vfs w) ++ " # ") w with
  | (Raise e, w) => (Raise e, w)
  | (Ok _, w) =>
      match inputs with
      | [] => (Raise EOFError, w)
      | command :: rest =>
          if decide (PyStr.strip_ws command = "exit") then (Ok tt, w)
          else
            match process_command command w with
            | (Ok _, w') => start prefix rest w'
            | (Raise e, w') => (Raise e, w')
            end
      end
  end.

(** The worlds after a sequence of [process_command] calls, each on
    the world the one before left, whether it raised or not. *)
Definition run (commands : list string) (w : world) : world :=
  foldl (λ w c, (process_command c w).2) w commands.

End Shell.

(** ** Vocabulary of the statements *)

(** A name without a slash, as every part of an archive entry is. *)
Fixpoint slash_free (s : string) : bool :=
  match s with
  | EmptyString => true
  | String c s' => negb (PyStr.is_slash c) && slash_free s'
  end.

(** A line of white space only. *)
Fixpoint all_space (s : string) : bool :=
  match s with
  | EmptyString => true
  | String c s' => PyStr.is_space c && all_space s'
  end.

(** [/s1/s2/.../sn], and [/] for no segment. *)
Fixpoint rooted (segs : list string) : string :=
  match segs with
  | [] => EmptyString
  | seg :: segs' => "/" ++ seg ++ rooted segs'
  end.

Definition path_of (segs : list string) : string :=
  match segs with
  | [] => "/"
  | _ :: _ => rooted segs
  end.

(** The archive of the repository's own test: a file at the root and one
    in a folder. *)
Definition test_archive : archive :=
  {| namelist := [ "file1.txt"; "dir/file2.txt" ];
     read_text := λ name,
       if decide (name = "dir/file2.txt") then Ok "hello"
       else Ok EmptyString |}.

(** An archive with a folder in a folder. *)
Definition nested_archive : archive :=
  {| namelist := [ "a/b/c.txt" ]; read_text := λ _, Ok EmptyString |}.

(** The object [test_archive] loads into. *)
Definition test_vfs : VirtualFileSystem :=
  {| zip_file_path := "VirtualDevice.zip"; current_dir := "/";
     fs := {[ "file1.txt" := File; "dir" := Dir {[ "file2.txt" := File ]} ]};
     files_content :=
       {[ "file1.txt" := EmptyString; "dir/file2.txt" := "hello" ]} |}.

(** An archive where the folder [a] holds the file [f] and the root holds
    the folder [af], and the object it loads into after [change_dir("a")]. *)
Definition shadow_archive : archive :=
  {| namelist := [ "a/f"; "af/x" ]; read_text := λ _, Ok EmptyString |}.

Definition shadow_vfs : VirtualFileSystem :=
  {| zip_file_path := "VirtualDevice.zip"; current_dir := "/a";
     fs := {[ "a" := Dir {[ "f" := File ]}; "af" := Dir {[ "x" := File ]} ]};
     files_content := {[ "a/f" := EmptyString; "af/x" := EmptyString ]} |}.

(** The object [nested_archive] loads into. *)
Definition nested_vfs : VirtualFileSystem :=
  {| zip_file_path := "VirtualDevice.zip"; current_dir := "/";
     fs := {[ "a" := Dir {[ "b" := Dir {[ "c.txt" := File ]} ]} ]};
     files_content := {[ "a/b/c.txt" := EmptyString ]} |}.

(** A terminal whose encoding has every character, and one whose
    encoding is ASCII. *)
Definition utf8_terminal : terminal :=
  {| encodes := λ _, true; encode_error := λ _, EmptyString |}.

Definition ascii_terminal : terminal :=
  {| encodes := λ _, false;
     encode_error := λ _, "'ascii' codec can't encode character" |}.

(** A shell on [test_vfs] that has processed nothing yet. *)
Definition test_world : world :=
  {| vfs := test_vfs; command_history := []; stdout := [];
     now_text := "Wed Jun 12 14:05:09 2024"; tty := utf8_terminal |}.

(** The same shell on the ASCII terminal. *)
Definition ascii_world : world :=
  {| vfs := test_vfs; command_history := []; stdout := [];
     now_text := "Wed Jun 12 14:05:09 2024"; tty := ascii_terminal |}.

(** The world with further events on its terminal. *)
Definition with_stdout (out : list event) (w : world) : world :=
  {| vfs := vfs w; command_history := command_history w;
     stdout := (stdout w ++ out)%list; now_text := now_text w;
     tty := tty w |}.

(** What [print] leaves on the terminal: no prompt. *)
Definition no_prompt (e : event) : Prop :=
  match e with
  | Prompted _ => False
  | _ => True
  end.

(** The character U+00E9, which ASCII lacks. *)
Definition e_acute : string := String "233" EmptyString.

(** A text of ASCII characters only. *)
Fixpoint all_ascii (s : string) : bool :=
  match s with
  | EmptyString => true
  | String c s' => is_ascii c && all_ascii s'
  end.

(** [repr] on a string of letters, digits and dots: single quotes around. *)
Definition quoted (s : string) : string := "'" ++ s ++ "'".

(** The lines the terminal shows for [command_history], numbered from 1. *)
Definition history_lines (history : list string) : list event :=
  imap (λ i c, Printed (history_line i c)) history.

(** A path that begins with a slash. *)
Definition starts_with_slash (s : string) : bool :=
  match s with
  | String c _ => PyStr.is_slash c
  | EmptyString => false
  end.

(** The lines [start] passes on: those before the first [exit]. *)
Fixpoint before_exit (inputs : list string) : list string :=
  match inputs with
  | [] => []
  | command :: rest =>
      if decide (PyStr.strip_ws command = "exit") then []
      else command :: before_exit rest
  end.

(** The first part of an entry name. *)
Definition first_part (file : string) : string :=
  hd EmptyString (PyStr.split "/" file).

(** An entry that makes a file: its last part is not empty. *)
Definition names_file (file : string) : bool :=
  negb (PyStr.is_empty (List.last (PyStr.split "/" file) EmptyString)).

(** The object as far as [load_zip] made it: all but the current path. *)
Definition same_tree (v v' : VirtualFileSystem) : Prop :=
  zip_file_path v' = zip_file_path v
  ∧ fs v' = fs v
  ∧ files_content v' = files_content v.

(** A prompt of [start]: the prefix, a path that begins with a slash,
    and [ # ]. *)
Definition prompt_ok (prefix : string) (e : event) : Prop :=
  match e with
  | Printed _ => True
  | Prompted text =>
      ∃ p, text = prefix ++ p ++ " # " ∧ starts_with_slash p = true
  | Unfinished _ => True
  end.

(** ** Properties of the string builtins *)

Example split_root : PyStr.split "/" EmptyString = [ EmptyString ].
Proof. reflexivity. Qed.
Example split_abs : PyStr.split "/" "/a/b" = [ EmptyString; "a"; "b" ].
Proof. reflexivity. Qed.
Example strip_abs : PyStr.strip PyStr.is_slash "//a/b/" = "a/b".
Proof. reflexivity. Qed.
Example split_ws_ex : PyStr.split_ws "  cd   dir1 " = [ "cd"; "dir1" ].
Proof. reflexivity. Qed.
Example splitlines_ex :
  PyStr.splitlines ("a" ++ String "010" (String "013" (String "010" "b")))
  = [ "a"; EmptyString; "b" ].
Proof. reflexivity. Qed.
Example str_of_nat_ex : PyStr.str_of_nat 10 = "10".
Proof. reflexivity. Qed.

Lemma string_app_assoc (s t u : string) : (s ++ t) ++ u = s ++ (t ++ u).
Proof.
  induction s as [|c s IH]; [done|].
  change (String c ((s ++ t) ++ u) = String c (s ++ t ++ u)). by rewrite IH.
Qed.

Lemma string_app_nil_r (s : string) : s ++ EmptyString = s.
Proof.
  induction s as [|c s IH]; [done|].
  change (String c (s ++ EmptyString) = String c s). by rewrite IH.
Qed.

Lemma split_not_nil sep s : PyStr.split sep s ≠ [].
Proof.
  destruct s as [|c s]; cbn; [done|].
  case_decide; [done|]. by destruct (PyStr.split sep s).
Qed.

Lemma split_slash_free s : slash_free s = true → PyStr.split "/" s = [ s ].
Proof.
  induction s as [|c s IH]; cbn; [done|].
  intros [Hc Hs]%andb_prop. rewrite IH by done.
  case_decide as Hd; [|done].
  subst c. by vm_compute in Hc.
Qed.

(** Splitting after a last segment without a slash. *)
Lemma split_snoc p s :
  slash_free s = true →
  PyStr.split "/" (p ++ "/" ++ s) = (PyStr.split "/" p ++ [ s ])%list.
Proof.
  intros Hs. induction p as [|c p IH].
  - change (EmptyString ++ "/" ++ s) with (String "/" s). cbn.
    by rewrite split_slash_free.
  - change (String c p ++ "/" ++ s) with (String c (p ++ "/" ++ s)).
    cbn. rewrite IH. case_decide; [done|].
    pose proof (split_not_nil "/" p).
    by destruct (PyStr.split "/" p).
Qed.

Lemma join_split p : PyStr.join "/" (PyStr.split "/" p) = p.
Proof.
  unfold PyStr.join. induction p as [|c p IH]; [done|].
  cbn. pose proof (split_not_nil "/" p) as Hne.
  case_decide as Hd.
  - subst c. destruct (PyStr.split "/" p) as [|w ws] eqn:E; [done|].
    cbn. by rewrite <- IH.
  - destruct (PyStr.split "/" p) as [|w ws] eqn:E; [done|].
    rewrite <- IH. by destruct ws.
Qed.

Lemma parent_dir_snoc p s :
  slash_free s = true →
  parent_dir (p ++ "/" ++ s) = if PyStr.is_empty p then "/" else p.
Proof.
  intros Hs. unfold parent_dir.
  by rewrite split_snoc, removelast_last, join_split.
Qed.

Lemma rooted_snoc segs s : rooted (segs ++ [ s ]) = rooted segs ++ "/" ++ s.
Proof.
  induction segs as [|x segs IH].
  - cbn. by rewrite string_app_nil_r.
  - change (rooted ((x :: segs) ++ [ s ]))
      with ("/" ++ x ++ rooted (segs ++ [ s ])).
    change (rooted (x :: segs)) with ("/" ++ x ++ rooted segs).
    by rewrite IH, !string_app_assoc.
Qed.

Lemma rooted_empty segs : PyStr.is_empty (rooted segs) = true → segs = [].
Proof. by destruct segs. Qed.

Lemma path_of_snoc segs s :
  slash_free s = true → parent_dir (path_of (segs ++ [ s ])) = path_of segs.
Proof.
  intros Hs.
  assert (path_of (segs ++ [ s ]) = rooted segs ++ "/" ++ s) as ->.
  { rewrite <- rooted_snoc. by destruct segs. }
  rewrite parent_dir_snoc by done. by destruct segs.
Qed.

Lemma rstrip_slash_free s :
  slash_free s = true → PyStr.rstrip PyStr.is_slash s = s.
Proof.
  induction s as [|c s IH]; cbn; [done|].
  intros [Hc Hs]%andb_prop. rewrite IH by done.
  destruct s; [|done]. by destruct (PyStr.is_slash c).
Qed.

(** The text [change_dir] appends for a name without a slash: the name. *)
Lemma strip_slash_name s :
  slash_free s = true → PyStr.strip PyStr.is_slash ("/" ++ s) = s.
Proof.
  intros Hs. unfold PyStr.strip.
  change ("/" ++ s) with (String "/" s). cbn.
  assert (PyStr.lstrip PyStr.is_slash s = s) as ->.
  { destruct s as [|c s]; [done|]. cbn in *.
    by destruct (PyStr.is_slash c). }
  by apply rstrip_slash_free.
Qed.

Lemma split_ws_all_space acc s :
  all_space s = true →
  PyStr.split_ws_from acc s = if PyStr.is_empty acc then [] else [ acc ].
Proof.
  revert acc. induction s as [|c s IH]; intros acc; cbn; [done|].
  intros [-> Hs]%andb_prop. rewrite !IH by done.
  by destruct (PyStr.is_empty acc).
Qed.

(** ** The listing *)

Lemma elem_of_keys (d : gmap string node) name :
  name ∈ keys d ↔ is_Some (d !! name).
Proof.
  unfold keys. rewrite list_elem_of_fmap. split.
  - intros [[k x] [-> Hk%elem_of_map_to_list]]. by exists x.
  - intros [x Hx]. exists (name, x). split; [done|].
    by apply elem_of_map_to_list.
Qed.

Lemma NoDup_keys (d : gmap string node) : NoDup (keys d).
Proof. apply NoDup_fst_map_to_list. Qed.

Lemma elem_of_List_filter {A} (f : A → bool) (l : list A) x :
  x ∈ List.filter f l ↔ x ∈ l ∧ f x = true.
Proof. rewrite !list_elem_of_In. apply filter_In. Qed.

Lemma NoDup_List_filter {A} (f : A → bool) (l : list A) :
  NoDup l → NoDup (List.filter f l).
Proof. rewrite !NoDup_ListNoDup. apply List.NoDup_filter. Qed.

Lemma elem_of_sorted name l : name ∈ sorted l ↔ name ∈ l.
Proof. unfold sorted. by rewrite merge_sort_Permutation. Qed.

Lemma NoDup_sorted l : NoDup l → NoDup (sorted l).
Proof. unfold sorted. by rewrite merge_sort_Permutation. Qed.

(** Ascending without repetition: each name strictly below the later ones. *)
Lemma sorted_strict l :
  NoDup l → StronglySorted (strict String.le) (sorted l).
Proof.
  intros Hnd%NoDup_sorted.
  pose proof (StronglySorted_merge_sort String.le l) as Hs.
  fold (sorted l) in Hs. induction Hs as [|x xs Hxs IH Hx].
  - constructor.
  - apply NoDup_cons in Hnd as [Hnotin Hnd].
    constructor; [by apply IH|].
    apply Forall_forall. intros y Hy.
    rewrite Forall_forall in Hx. split; [by apply Hx|].
    intros Hyx. assert (x = y) as -> by (apply (anti_symm String.le); auto).
    done.
Qed.

Lemma elem_of_folders_of d name :
  name ∈ folders_of d ↔ ∃ sub, d !! name = Some (Dir sub).
Proof.
  unfold folders_of. rewrite elem_of_sorted, elem_of_List_filter, elem_of_keys.
  unfold is_folder. split.
  - intros [_ H]. destruct (d !! name) as [[]|]; by eauto.
  - intros [sub ->]. by eauto.
Qed.

Lemma elem_of_files_of d name :
  name ∈ files_of d ↔ d !! name = Some File.
Proof.
  unfold files_of. rewrite elem_of_sorted, elem_of_List_filter, elem_of_keys.
  unfold is_file. split.
  - intros [_ H]. by destruct (d !! name) as [[]|].
  - intros ->. by eauto.
Qed.

(** Every key of the dictionary is listed. *)
Lemma elem_of_listing d name :
  name ∈ (folders_of d ++ files_of d)%list ↔ is_Some (d !! name).
Proof.
  rewrite elem_of_app, elem_of_folders_of, elem_of_files_of. split.
  - intros [[sub ->]| ->]; by eauto.
  - intros [[|sub] ->]; by eauto.
Qed.

Lemma NoDup_listing d : NoDup (folders_of d ++ files_of d)%list.
Proof.
  apply NoDup_app. split_and!.
  - apply NoDup_sorted, NoDup_List_filter, NoDup_keys.
  - intros name [sub Hsub]%elem_of_folders_of Hfile%elem_of_files_of.
    congruence.
  - apply NoDup_sorted, NoDup_List_filter, NoDup_keys.
Qed.

Lemma list_dir_resolved v d :
  resolve v = Ok (Dir d) → list_dir v = Ok (folders_of d ++ files_of d)%list.
Proof. unfold list_dir. by intros ->. Qed.

(** C4: where the current directory resolves to the dictionary [d],
    [list_dir] returns the folders of [d] followed by its files, each
    group strictly ascending, a name being in the first group exactly when
    its value is a dictionary and in the second exactly when it is [None],
    and no name occurring twice. *)
Theorem list_dir_folders_then_files v d :
  resolve v = Ok (Dir d) →
  ∃ folders files,
    list_dir v = Ok (folders ++ files)%list
    ∧ StronglySorted (strict String.le) folders
    ∧ StronglySorted (strict String.le) files
    ∧ (∀ name, name ∈ folders ↔ ∃ sub, d !! name = Some (Dir sub))
    ∧ (∀ name, name ∈ files ↔ d !! name = Some File)
    ∧ NoDup (folders ++ files)%list.
Proof.
  intros Hd. exists (folders_of d), (files_of d). split_and!.
  - by apply list_dir_resolved.
  - apply sorted_strict, NoDup_List_filter, NoDup_keys.
  - apply sorted_strict, NoDup_List_filter, NoDup_keys.
  - apply elem_of_folders_of.
  - apply elem_of_files_of.
  - apply NoDup_listing.
Qed.

Lemma list_dir_folders_then_files_witness :
  resolve test_vfs = Ok (Dir (fs test_vfs))
  ∧ ∃ folders files,
      list_dir test_vfs = Ok (folders ++ files)%list
      ∧ StronglySorted (strict String.le) folders
      ∧ StronglySorted (strict String.le) files
      ∧ (∀ name, name ∈ folders ↔ ∃ sub, fs test_vfs !! name = Some (Dir sub))
      ∧ (∀ name, name ∈ files ↔ fs test_vfs !! name = Some File)
      ∧ NoDup (folders ++ files)%list.
Proof.
  split; [reflexivity|].
  apply (list_dir_folders_then_files test_vfs). reflexivity.
Defined.

Example list_dir_test_vfs : list_dir test_vfs = Ok [ "dir"; "file1.txt" ].
Proof. vm_compute. reflexivity. Qed.

(** The example of the specification: [dir1] before [a.txt] before [b.txt]. *)
Example list_dir_folder_first :
  list_dir {| zip_file_path := "VirtualDevice.zip"; current_dir := "/";
              fs := {[ "b.txt" := File; "a.txt" := File; "dir1" := Dir ∅ ]};
              files_content := ∅ |}
  = Ok [ "dir1"; "a.txt"; "b.txt" ].
Proof. vm_compute. reflexivity. Qed.

(** ** change_dir *)

Lemma set_current_dir_id v : set_current_dir (current_dir v) v = v.
Proof. by destruct v. Qed.

(** C5: a name other than [..] that the listing of the current directory
    does not hold makes [change_dir] raise [FileNotFoundError] with the
    message [No such directory: name], the object being left as it was. *)
Theorem change_dir_missing v listing name :
  name ≠ ".." →
  list_dir v = Ok listing →
  name ∉ listing →
  change_dir name v
  = (Raise (FileNotFoundError ("No such directory: " ++ name)), v).
Proof.
  intros Hne Hl Hnotin. unfold change_dir.
  rewrite decide_False by done. rewrite Hl.
  by rewrite decide_False by done.
Qed.

(** When the current directory does not resolve, the exception of
    [list_dir] is the one [change_dir] raises, the object unchanged too. *)
Lemma change_dir_unresolved v e name :
  name ≠ ".." → list_dir v = Raise e → change_dir name v = (Raise e, v).
Proof.
  intros Hne Hl. unfold change_dir.
  rewrite decide_False by done. by rewrite Hl.
Qed.

Lemma change_dir_missing_witness :
  ("missing" ≠ "..")
  ∧ (list_dir test_vfs = Ok [ "dir"; "file1.txt" ])
  ∧ ("missing" ∉ [ "dir"; "file1.txt" ])
  ∧ (change_dir "missing" test_vfs
     = (Raise (FileNotFoundError "No such directory: missing"), test_vfs)).
Proof.
  assert ("missing" ≠ "..") as H1 by discriminate.
  assert (list_dir test_vfs = Ok [ "dir"; "file1.txt" ]) as H2
    by (vm_compute; reflexivity).
  assert ("missing" ∉ [ "dir"; "file1.txt" ]) as H3
    by (rewrite !not_elem_of_cons; split_and!;
        [discriminate..|apply not_elem_of_nil]).
  split_and!; [exact H1|exact H2|exact H3|].
  exact (change_dir_missing test_vfs _ "missing" H1 H2 H3).
Defined.

(** C6: [change_dir("..")] at the root leaves the object as it is, the
    path staying [/]; on a path [/s1/.../sn/s], where [s] holds no slash,
    it leaves [/s1/.../sn], which is [/] when [s] was the only segment. *)
Theorem change_dir_parent v :
  (current_dir v = "/" → change_dir ".." v = (Ok tt, v))
  ∧ (∀ segs s,
       slash_free s = true →
       current_dir v = path_of (segs ++ [ s ]) →
       change_dir ".." v = (Ok tt, set_current_dir (path_of segs) v)).
Proof.
  unfold change_dir. rewrite decide_True by done. split.
  - intros Hroot. rewrite Hroot.
    change (parent_dir "/") with "/". rewrite <- Hroot.
    by rewrite set_current_dir_id.
  - intros segs s Hs ->. by rewrite path_of_snoc.
Qed.

Lemma change_dir_parent_witness :
  (current_dir test_vfs = "/" ∧ change_dir ".." test_vfs = (Ok tt, test_vfs))
  ∧ (slash_free "sub" = true
     ∧ current_dir (set_current_dir "/dir/sub" test_vfs)
       = path_of ([ "dir" ] ++ [ "sub" ])
     ∧ change_dir ".." (set_current_dir "/dir/sub" test_vfs)
       = (Ok tt, set_current_dir "/dir" test_vfs)).
Proof.
  split.
  - split; [reflexivity|].
    exact (proj1 (change_dir_parent test_vfs) eq_refl).
  - split_and!; [reflexivity..|].
    exact (proj2 (change_dir_parent (set_current_dir "/dir/sub" test_vfs))
             [ "dir" ] "sub" eq_refl eq_refl).
Defined.

Example change_dir_parent_of_top :
  (change_dir ".." (set_current_dir "/dir" test_vfs)).2 = test_vfs.
Proof. reflexivity. Qed.

(** From the root, a listed name without a slash is appended after the
    slash of the root. *)
Lemma change_dir_from_root v listing name :
  current_dir v = "/" → name ≠ ".." → slash_free name = true →
  list_dir v = Ok listing → name ∈ listing →
  change_dir name v = (Ok tt, set_current_dir ("/" ++ name) v).
Proof.
  intros Hroot Hne Hs Hl Hin. unfold change_dir.
  rewrite decide_False by done. rewrite Hl.
  rewrite decide_True by done.
  by rewrite strip_slash_name, Hroot.
Qed.

(** What the code does on a path below the root: the name follows the
    current path with no slash in between. *)
Lemma change_dir_appends v listing name :
  name ≠ ".." → slash_free name = true →
  list_dir v = Ok listing → name ∈ listing →
  change_dir name v = (Ok tt, set_current_dir (current_dir v ++ name) v).
Proof.
  intros Hne Hs Hl Hin. unfold change_dir.
  rewrite decide_False by done. rewrite Hl.
  rewrite decide_True by done.
  by rewrite strip_slash_name.
Qed.

Lemma change_dirs_concatenates names : ∀ v v',
  Forall (λ name, name ≠ ".." ∧ slash_free name = true) names →
  change_dirs names v = (Ok tt, v') →
  current_dir v' = current_dir v ++ String.concat EmptyString names.
Proof.
  induction names as [|name names IH]; intros v v' Hnames Hrun.
  - cbn in Hrun. injection Hrun as <-. by rewrite string_app_nil_r.
  - apply Forall_cons in Hnames as [[Hne Hs] Hnames].
    cbn [change_dirs] in Hrun.
    destruct (change_dir name v) as [[[]|e] v1] eqn:Hcd; [|done].
    rewrite (IH _ _ Hnames Hrun).
    unfold change_dir in Hcd. rewrite decide_False in Hcd by done.
    destruct (list_dir v) as [listing|e]; [|done].
    case_decide; [|done]. injection Hcd as <-.
    rewrite strip_slash_name by done. cbn [current_dir set_current_dir].
    rewrite string_app_assoc. f_equal.
    destruct names as [|n2 names']; cbn [String.concat].
    + by rewrite string_app_nil_r.
    + done.
Qed.

Example new_vfs_nested :
  new_vfs "VirtualDevice.zip" nested_archive = Ok nested_vfs.
Proof. vm_compute. reflexivity. Qed.

Example new_vfs_test :
  new_vfs "VirtualDevice.zip" test_archive = Ok test_vfs.
Proof. vm_compute. reflexivity. Qed.

Example shadow_vfs_reached :
  (v ← new_vfs "VirtualDevice.zip" shadow_archive; Ok (change_dir "a" v))
  = Ok (Ok tt, shadow_vfs).
Proof. vm_compute. reflexivity. Qed.

(** The repository's test [test_change_dir]: one level below the root. *)
Example change_dir_one_level :
  change_dir "a" nested_vfs = (Ok tt, set_current_dir "/a" nested_vfs).
Proof. vm_compute. reflexivity. Qed.

(** C1: on the archive holding [a/b/c.txt], [change_dir("a")] then
    [change_dir("b")] from the root both succeed and leave the current
    path [/ab], not [/a/b]: line 45 strips the slash off the text it
    appends. *)
Theorem change_dir_nested_drops_slash :
  new_vfs "VirtualDevice.zip" nested_archive = Ok nested_vfs
  ∧ change_dirs [ "a"; "b" ] nested_vfs
    = (Ok tt, set_current_dir "/ab" nested_vfs)
  ∧ current_path (change_dirs [ "a"; "b" ] nested_vfs).2 = "/ab"
  ∧ current_path (change_dirs [ "a"; "b" ] nested_vfs).2 ≠ path_of [ "a"; "b" ].
Proof. split_and!; [vm_compute; reflexivity..|discriminate]. Qed.

(** C2: on the same archive the two successful [change_dir] calls leave
    a current directory that resolves to nothing: [list_dir] raises
    [KeyError] for [ab]. *)
Theorem change_dir_nested_breaks_list_dir :
  new_vfs "VirtualDevice.zip" nested_archive = Ok nested_vfs
  ∧ (change_dirs [ "a"; "b" ] nested_vfs).1 = Ok tt
  ∧ resolve (change_dirs [ "a"; "b" ] nested_vfs).2 = Raise (KeyError "ab")
  ∧ list_dir (change_dirs [ "a"; "b" ] nested_vfs).2 = Raise (KeyError "ab").
Proof. split_and!; vm_compute; reflexivity. Qed.

(** One successful call is enough when the name is a file. *)
Example change_dir_file_breaks_list_dir :
  (change_dir "file1.txt" test_vfs).1 = Ok tt
  ∧ list_dir (change_dir "file1.txt" test_vfs).2 = Raise (none_attr "keys").
Proof. split; vm_compute; reflexivity. Qed.

(** C10, as amended: [change_dir] succeeds on every name of the current
    listing, a file included; from the root, for a file whose name is
    not empty, holds no slash and is not [..], the current path becomes
    [/name], which resolves to the [None] of that file, so that
    [list_dir] raises afterwards. *)
Theorem change_dir_accepts_listed v listing name :
  list_dir v = Ok listing →
  name ∈ listing →
  (change_dir name v).1 = Ok tt
  ∧ (current_dir v = "/" → fs v !! name = Some File →
     name ≠ ".." → name ≠ EmptyString → slash_free name = true →
     current_dir (change_dir name v).2 = "/" ++ name
     ∧ resolve (change_dir name v).2 = Ok File
     ∧ list_dir (change_dir name v).2 = Raise (none_attr "keys")).
Proof.
  intros Hl Hin. split.
  - unfold change_dir. case_decide; [done|].
    rewrite Hl. by rewrite decide_True by done.
  - intros Hroot Hfile Hne Hne' Hs.
    rewrite (change_dir_from_root v listing name) by done.
    cbn [snd]. assert (resolve (set_current_dir ("/" ++ name) v) = Ok File) as Hr.
    { unfold resolve. cbn [current_dir set_current_dir fs].
      rewrite strip_slash_name, split_slash_free by done.
      cbn. destruct name as [|c name]; [done|]. cbn. by rewrite Hfile. }
    split_and!; [done|done|]. unfold list_dir. by rewrite Hr.
Qed.

Lemma change_dir_accepts_listed_witness :
  (list_dir test_vfs = Ok [ "dir"; "file1.txt" ])
  ∧ ("file1.txt" ∈ [ "dir"; "file1.txt" ])
  ∧ (change_dir "file1.txt" test_vfs).1 = Ok tt
  ∧ (current_dir test_vfs = "/" ∧ fs test_vfs !! "file1.txt" = Some File
     ∧ "file1.txt" ≠ ".." ∧ "file1.txt" ≠ EmptyString
     ∧ slash_free "file1.txt" = true)
  ∧ current_dir (change_dir "file1.txt" test_vfs).2 = "/file1.txt"
  ∧ resolve (change_dir "file1.txt" test_vfs).2 = Ok File
  ∧ list_dir (change_dir "file1.txt" test_vfs).2 = Raise (none_attr "keys").
Proof.
  assert (list_dir test_vfs = Ok [ "dir"; "file1.txt" ]) as H1
    by (vm_compute; reflexivity).
  assert ("file1.txt" ∈ [ "dir"; "file1.txt" ]) as H2
    by (apply list_elem_of_further, list_elem_of_here).
  assert (fs test_vfs !! "file1.txt" = Some File) as H3
    by (vm_compute; reflexivity).
  assert ("file1.txt" ≠ "..") as H4 by discriminate.
  assert ("file1.txt" ≠ EmptyString) as H5 by discriminate.
  destruct (change_dir_accepts_listed test_vfs _ "file1.txt" H1 H2) as [Ha Hb].
  specialize (Hb eq_refl H3 H4 H5 eq_refl).
  split; [exact H1|]. split; [exact H2|]. split; [exact Ha|].
  split; [by split_and!|]. exact Hb.
Defined.

(** C10, the claim as it stands, fails: in [shadow_vfs], reached by
    loading [shadow_archive] and calling [change_dir("a")], the file [f]
    is listed, [change_dir("f")] succeeds, and the current path [/af]
    resolves to the folder [af] of the root. *)
Lemma change_dir_file_may_reach_folder :
  ¬ (∀ v d name,
       resolve v = Ok (Dir d) → d !! name = Some File →
       (change_dir name v).1 = Ok tt
       ∧ ∀ d', resolve (change_dir name v).2 ≠ Ok (Dir d')).
Proof.
  intros Hclaim.
  destruct (Hclaim shadow_vfs {[ "f" := File ]} "f") as [_ Hnot].
  - vm_compute. reflexivity.
  - vm_compute. reflexivity.
  - apply (Hnot {[ "x" := File ]}). vm_compute. reflexivity.
Qed.

(** A file named [..] at the root is listed as well, and [change_dir]
    on it stays at the root. *)
Example change_dir_file_named_dotdot :
  let v := {| zip_file_path := "VirtualDevice.zip"; current_dir := "/";
              fs := {[ ".." := File ]};
              files_content := {[ ".." := EmptyString ]} |} in
  list_dir v = Ok [ ".." ] ∧ change_dir ".." v = (Ok tt, v).
Proof. split; vm_compute; reflexivity. Qed.

(** ** load_zip *)

Lemma add_entry_keeps dirparts final d d' k :
  add_entry dirparts final d = Ok d' → is_Some (d !! k) → is_Some (d' !! k).
Proof.
  intros Hadd Hk. destruct dirparts as [|part rest]; cbn in Hadd.
  - injection Hadd as <-. destruct (PyStr.is_empty final); [done|].
    apply lookup_insert_is_Some'. by right.
  - destruct (default (Dir ∅) (d !! part)) as [|sub].
    + destruct rest; [|done].
      destruct (PyStr.is_empty final); [|done]. by injection Hadd as <-.
    + destruct (add_entry rest final sub) as [sub'|e]; [|done].
      injection Hadd as <-. apply lookup_insert_is_Some'. by right.
Qed.

(** The first part of an entry path is a key of the dictionary afterwards. *)
Lemma add_entry_first part rest final d d' :
  add_entry (part :: rest) final d = Ok d' → is_Some (d' !! part).
Proof.
  cbn. destruct (d !! part) as [[|sub]|] eqn:Hp; cbn.
  - intros Hadd. destruct rest; [|done].
    destruct (PyStr.is_empty final); [|done].
    injection Hadd as <-. by rewrite Hp.
  - destruct (add_entry rest final sub) as [sub'|e]; [|done].
    intros [= <-]. apply lookup_insert_is_Some'. by left.
  - destruct (add_entry rest final ∅) as [sub'|e]; [|done].
    intros [= <-]. apply lookup_insert_is_Some'. by left.
Qed.

Lemma load_entries_keeps z names : ∀ st st' k,
  load_entries z names st = Ok st' →
  is_Some (st.1 !! k) → is_Some (st'.1 !! k).
Proof.
  induction names as [|file names IH]; intros st st' k Hload Hk.
  - by injection Hload as <-.
  - cbn [load_entries] in Hload.
    destruct (add_entry _ _ st.1) as [tree|e] eqn:Hadd; [|done].
    cbn in Hload.
    pose proof (add_entry_keeps _ _ _ _ k Hadd Hk) as Hk'.
    destruct (PyStr.is_empty _).
    + by apply (IH _ _ k Hload).
    + destruct (read_text z file) as [text|e]; [|done].
      by apply (IH _ _ k Hload).
Qed.

Lemma load_entries_first z names : ∀ st st' file part rest,
  load_entries z names st = Ok st' →
  file ∈ names →
  removelast (PyStr.split "/" file) = part :: rest →
  is_Some (st'.1 !! part).
Proof.
  induction names as [|name names IH];
    intros st st' file part rest Hload Hin Hparts.
  - by apply elem_of_nil in Hin.
  - cbn [load_entries] in Hload.
    destruct (add_entry _ _ st.1) as [tree|e] eqn:Hadd; [|done].
    cbn in Hload.
    apply elem_of_cons in Hin as [<-|Hin].
    + rewrite Hparts in Hadd. apply add_entry_first in Hadd.
      destruct (PyStr.is_empty _).
      * by apply (load_entries_keeps _ _ _ _ part Hload).
      * destruct (read_text z file) as [text|e]; [|done].
        by apply (load_entries_keeps _ _ _ _ part Hload).
    + destruct (PyStr.is_empty _).
      * by apply (IH _ _ file part rest Hload).
      * destruct (read_text z name) as [text|e]; [|done].
        by apply (IH _ _ file part rest Hload).
Qed.

(** The text of an entry whose last part is not empty is in the content
    table afterwards, and a text that agrees with the archive stays. *)
Lemma load_entries_content z names : ∀ st st' file text,
  load_entries z names st = Ok st' →
  read_text z file = Ok text →
  st.2 !! file = Some text
  ∨ (file ∈ names
     ∧ PyStr.is_empty (List.last (PyStr.split "/" file) EmptyString)
       = false) →
  st'.2 !! file = Some text.
Proof.
  induction names as [|name names IH]; intros st st' file text Hload Hread Hc.
  - injection Hload as <-. destruct Hc as [Hc|[Hin _]]; [done|].
    by apply elem_of_nil in Hin.
  - cbn [load_entries] in Hload.
    destruct (add_entry _ _ st.1) as [tree|e] eqn:Hadd; [|done].
    cbn in Hload.
    destruct (PyStr.is_empty (List.last (PyStr.split "/" name) EmptyString))
      eqn:Hlast.
    + apply (IH _ _ file text Hload Hread). cbn.
      destruct Hc as [Hc|[Hin Hne]]; [by left|].
      apply elem_of_cons in Hin as [->|Hin]; [congruence|by right].
    + destruct (read_text z name) as [text0|e] eqn:Hread0; [|done].
      cbn in Hload. apply (IH _ _ file text Hload Hread). cbn.
      destruct (decide (name = file)) as [->|Hne].
      * left. rewrite lookup_insert_eq. congruence.
      * rewrite lookup_insert_ne by done.
        destruct Hc as [Hc|[Hin Hne']]; [by left|].
        apply elem_of_cons in Hin as [->|Hin]; [done|by right].
Qed.

Lemma new_vfs_root path z v : new_vfs path z = Ok v → current_dir v = "/".
Proof.
  unfold new_vfs. destruct (load_entries _ _ _); [|done]. by intros [= <-].
Qed.

Lemma resolve_root v : current_dir v = "/" → resolve v = Ok (Dir (fs v)).
Proof. unfold resolve. by intros ->. Qed.

Lemma rstrip_app p a b :
  PyStr.rstrip p b ≠ EmptyString →
  PyStr.rstrip p (a ++ b) = a ++ PyStr.rstrip p b.
Proof.
  intros Hb. induction a as [|c a IH]; [done|].
  change (String c a ++ b) with (String c (a ++ b)).
  change (String c a ++ PyStr.rstrip p b) with (String c (a ++ PyStr.rstrip p b)).
  cbn [PyStr.rstrip]. rewrite IH.
  destruct (a ++ PyStr.rstrip p b) eqn:E; [|done].
  destruct a; [|done]. by destruct Hb.
Qed.

(** A relative path [dir/f] of two plain names is left as it is by
    [strip("/")]. *)
Lemma strip_slash_relative dir f :
  slash_free dir = true → dir ≠ EmptyString →
  slash_free f = true → f ≠ EmptyString →
  PyStr.strip PyStr.is_slash (dir ++ "/" ++ f) = dir ++ "/" ++ f.
Proof.
  intros Hd Hd' Hf Hf'. unfold PyStr.strip.
  assert (PyStr.lstrip PyStr.is_slash (dir ++ "/" ++ f) = dir ++ "/" ++ f) as ->.
  { destruct dir as [|c dir]; [done|]. cbn in Hd.
    apply andb_prop in Hd as [Hc _].
    change (String c dir ++ "/" ++ f) with (String c (dir ++ "/" ++ f)).
    cbn. by destruct (PyStr.is_slash c). }
  assert (PyStr.rstrip PyStr.is_slash ("/" ++ f) = "/" ++ f) as Hr.
  { change ("/" ++ f) with (String "/" f). cbn [PyStr.rstrip].
    rewrite rstrip_slash_free by done. by destruct f. }
  rewrite rstrip_app; rewrite Hr; done.
Qed.

(** Loading then reading, for any file [dir/f] one folder below the
    root: [read_file] gives back the lines of the text the archive holds. *)
Lemma read_file_in_folder z path v dir f text :
  slash_free dir = true → dir ≠ EmptyString → dir ≠ ".." →
  slash_free f = true → f ≠ EmptyString →
  (dir ++ "/" ++ f) ∈ namelist z →
  read_text z (dir ++ "/" ++ f) = Ok text →
  new_vfs path z = Ok v →
  (change_dir dir v).1 = Ok tt
  ∧ current_path (change_dir dir v).2 = "/" ++ dir
  ∧ read_file f (change_dir dir v).2 = Ok (PyStr.splitlines text).
Proof.
  intros Hd Hd' Hd'' Hf Hf' Hin Hread Hnew.
  pose proof (new_vfs_root _ _ _ Hnew) as Hroot.
  unfold new_vfs in Hnew.
  destruct (load_entries z (namelist z) (∅, ∅)) as [st|e] eqn:Hload; [|done].
  cbn in Hnew. injection Hnew as <-.
  assert (PyStr.split "/" (dir ++ "/" ++ f) = [ dir; f ]) as Hsplit.
  { by rewrite split_snoc, split_slash_free. }
  assert (is_Some (st.1 !! dir)) as Hdir.
  { apply (load_entries_first _ _ _ _ (dir ++ "/" ++ f) dir [] Hload Hin).
    by rewrite Hsplit. }
  assert (st.2 !! (dir ++ "/" ++ f) = Some text) as Hfile.
  { apply (load_entries_content _ _ _ _ _ _ Hload Hread). right.
    split; [done|]. rewrite Hsplit. by destruct f. }
  set (v := {| zip_file_path := path; current_dir := "/";
               fs := st.1; files_content := st.2 |}) in *.
  rewrite (change_dir_from_root v (folders_of st.1 ++ files_of st.1)%list dir);
    [|done|done|done|by apply list_dir_resolved, resolve_root
     |by apply elem_of_listing].
  split_and!; [done|done|].
  unfold read_file. cbn [snd current_dir set_current_dir files_content v].
  rewrite strip_slash_name, strip_slash_relative by done.
  by rewrite Hfile.
Qed.

(** C3: when the archive lists [dir/file2.txt] and its text decodes to
    [hello], the loaded object accepts [change_dir("dir")] at the root
    and [read_file("file2.txt")] then returns the one line [hello]. *)
Theorem read_file_after_load z path v :
  "dir/file2.txt" ∈ namelist z →
  read_text z "dir/file2.txt" = Ok "hello" →
  new_vfs path z = Ok v →
  (change_dir "dir" v).1 = Ok tt
  ∧ current_path (change_dir "dir" v).2 = "/dir"
  ∧ read_file "file2.txt" (change_dir "dir" v).2 = Ok [ "hello" ].
Proof.
  intros Hin Hread Hnew.
  by apply (read_file_in_folder z path v "dir" "file2.txt" "hello").
Qed.

Lemma read_file_after_load_witness :
  ("dir/file2.txt" ∈ namelist test_archive)
  ∧ (read_text test_archive "dir/file2.txt" = Ok "hello")
  ∧ (new_vfs "VirtualDevice.zip" test_archive = Ok test_vfs)
  ∧ (change_dir "dir" test_vfs).1 = Ok tt
  ∧ current_path (change_dir "dir" test_vfs).2 = "/dir"
  ∧ read_file "file2.txt" (change_dir "dir" test_vfs).2 = Ok [ "hello" ].
Proof.
  assert ("dir/file2.txt" ∈ namelist test_archive) as H1
    by (apply list_elem_of_further, list_elem_of_here).
  assert (read_text test_archive "dir/file2.txt" = Ok "hello") as H2
    by reflexivity.
  assert (new_vfs "VirtualDevice.zip" test_archive = Ok test_vfs) as H3
    by (vm_compute; reflexivity).
  split; [exact H1|]. split; [exact H2|]. split; [exact H3|].
  exact (read_file_after_load test_archive _ test_vfs H1 H2 H3).
Defined.

(** ** The terminal *)

Lemma with_stdout_nil w : with_stdout [] w = w.
Proof. destruct w. unfold with_stdout. cbn. by rewrite app_nil_r. Qed.

Lemma with_stdout_app out1 out2 w :
  with_stdout out2 (with_stdout out1 w) = with_stdout (out1 ++ out2) w.
Proof. unfold with_stdout. cbn. by rewrite app_assoc. Qed.

Lemma set_vfs_id w : set_vfs (vfs w) w = w.
Proof. by destruct w. Qed.

Lemma writable_tty w w' s : tty w' = tty w → writable w' s = writable w s.
Proof.
  intros Ht. induction s as [|c s IH]; [done|].
  cbn [writable]. unfold encodable. by rewrite Ht, IH.
Qed.

Lemma writable_ascii w s : all_ascii s = true → writable w s = true.
Proof.
  induction s as [|c s IH]; [done|]. cbn [all_ascii writable].
  intros [Hc Hs]%andb_prop. unfold encodable.
  by rewrite Hc, orb_true_r, IH.
Qed.

Lemma writable_all w s : (∀ c, encodable w c = true) → writable w s = true.
Proof.
  intros Hall. induction s as [|c s IH]; [done|].
  cbn [writable]. by rewrite Hall, IH.
Qed.

Lemma str_of_uint_ascii d : all_ascii (NilEmpty.string_of_uint d) = true.
Proof. induction d; cbn; by rewrite ?IHd. Qed.

Lemma str_of_nat_ascii n : all_ascii (PyStr.str_of_nat n) = true.
Proof.
  unfold PyStr.str_of_nat, NilZero.string_of_uint.
  destruct (Nat.to_uint n); try done; apply str_of_uint_ascii.
Qed.

Lemma print_pieces_writable w args :
  Forall (λ a, writable w a = true) args →
  Forall (λ a, writable w a = true) (print_pieces args).
Proof.
  induction args as [|a rest IH]; intros Hargs.
  - cbn. constructor; [by apply writable_ascii|constructor].
  - apply Forall_cons in Hargs as [Ha Hrest]. cbn [print_pieces].
    destruct rest as [|b rest].
    + constructor; [done|].
      constructor; [by apply writable_ascii|constructor].
    + constructor; [done|].
      constructor; [by apply writable_ascii|]. by apply IH.
Qed.

Lemma write_pieces_ok w pieces :
  Forall (λ a, writable w a = true) pieces →
  (write_pieces w pieces).2 = None.
Proof.
  induction pieces as [|piece rest IH]; intros Hp; [done|].
  apply Forall_cons in Hp as [Hpiece Hrest]. cbn. rewrite Hpiece.
  specialize (IH Hrest). by destruct (write_pieces w rest).
Qed.

(** [print] succeeds when the terminal can encode its arguments. *)
Lemma print_ok args w :
  Forall (λ a, writable w a = true) args →
  print args w = (Ok tt, emit (Printed (PyStr.print_text args)) w).
Proof.
  intros Hargs. unfold print.
  pose proof (write_pieces_ok w _ (print_pieces_writable w args Hargs)) as H.
  destruct (write_pieces w (print_pieces args)) as [written refused].
  cbn in H. by subst.
Qed.

(** What [print] raises is a [UnicodeEncodeError]. *)
Lemma print_outcome args w :
  (print args w).1 = Ok tt
  ∨ ∃ msg, (print args w).1 = Raise (UnicodeEncodeError msg).
Proof.
  unfold print. destruct (write_pieces w (print_pieces args)) as [t [bad|]].
  - right. by eexists.
  - by left.
Qed.

(** [print] touches the terminal only, and writes no prompt. *)
Lemma print_writes args w :
  ∃ out, (print args w).2 = with_stdout out w ∧ Forall no_prompt out.
Proof.
  unfold print. destruct (write_pieces w (print_pieces args)) as [t [bad|]].
  - cbn [snd]. destruct (PyStr.is_empty t).
    + exists []. by rewrite with_stdout_nil.
    + exists [ Unfinished t ]. split; [done|]. by repeat constructor.
  - exists [ Printed (PyStr.print_text args) ]. split; [done|].
    by repeat constructor.
Qed.

Lemma print_history_writes h : ∀ i w,
  ∃ out, (print_history i h w).2 = with_stdout out w ∧ Forall no_prompt out.
Proof.
  induction h as [|c h IH]; intros i w.
  - exists []. by rewrite with_stdout_nil.
  - cbn [print_history].
    destruct (print_writes [ PyStr.str_of_nat (i + 1); " "; c ] w)
      as (out1 & H1 & Hf1).
    destruct (print _ w) as [[[]|e] w1]; cbn in H1; subst w1.
    + destruct (IH (S i) (with_stdout out1 w)) as (out2 & H2 & Hf2).
      exists (out1 ++ out2)%list. rewrite H2, with_stdout_app.
      split; [done|]. by apply Forall_app.
    + by exists out1.
Qed.

Lemma print_history_outcome h : ∀ i w,
  (print_history i h w).1 = Ok tt
  ∨ ∃ msg, (print_history i h w).1 = Raise (UnicodeEncodeError msg).
Proof.
  induction h as [|c h IH]; intros i w; [by left|].
  cbn [print_history].
  pose proof (print_outcome [ PyStr.str_of_nat (i + 1); " "; c ] w) as Hp.
  destruct (print _ w) as [[[]|e] w1]; [apply IH|].
  cbn in Hp. destruct Hp as [?|[msg ?]]; [done|]. right. by exists msg.
Qed.

(** The loop of [history] on lines the terminal can encode: one line
    each, numbered on from [i + 1]. *)
Lemma print_history_ok h : ∀ i w,
  Forall (λ c, writable w c = true) h →
  print_history i h w
  = (Ok tt,
     with_stdout (imap (λ j c, Printed (history_line (i + j) c)) h) w).
Proof.
  induction h as [|c h IH]; intros i w Hh.
  - cbn. by rewrite with_stdout_nil.
  - apply Forall_cons in Hh as [Hc Hh]. cbn [print_history].
    rewrite print_ok.
    2:{ constructor; [apply writable_ascii, str_of_nat_ascii|].
        constructor; [by apply writable_ascii|]. by constructor. }
    rewrite IH.
    2:{ eapply Forall_impl; [exact Hh|]. intros x Hx. cbn beta.
        by rewrite (writable_tty w). }
    f_equal. unfold emit, with_stdout.
    cbn [vfs command_history stdout now_text tty]. f_equal.
    rewrite <- app_assoc. f_equal. cbn [imap app].
    rewrite Nat.add_0_r. f_equal. apply imap_ext.
    intros j x _. unfold compose. by rewrite Nat.add_succ_r.
Qed.

(** ** The shell *)

(** What a command does to the world: it may put a new current path in
    the file system through [change_dir], and it writes to the terminal;
    the history, the clock and the encoding stay. *)
Lemma dispatch_writes parts w :
  ∃ out v',
    (dispatch parts w).2 = set_vfs v' (with_stdout out w)
    ∧ Forall no_prompt out
    ∧ (v' = vfs w ∨ ∃ arg, v' = (change_dir arg (vfs w)).2).
Proof.
  assert (∀ args, ∃ out v',
            (print args w).2 = set_vfs v' (with_stdout out w)
            ∧ Forall no_prompt out
            ∧ (v' = vfs w ∨ ∃ arg, v' = (change_dir arg (vfs w)).2))
    as Hprint.
  { intros args. destruct (print_writes args w) as (out & -> & Hf).
    exists out, (vfs w). split_and!; [done|done|by left]. }
  assert (∃ out v',
            w = set_vfs v' (with_stdout out w)
            ∧ Forall no_prompt out
            ∧ (v' = vfs w ∨ ∃ arg, v' = (change_dir arg (vfs w)).2))
    as Hsame.
  { exists [], (vfs w). rewrite with_stdout_nil, set_vfs_id.
    split_and!; [done|constructor|by left]. }
  unfold dispatch. destruct parts as [|cmd args]; [done|].
  repeat case_decide.
  - destruct (list_dir (vfs w)); [apply Hprint|done].
  - apply Hprint.
  - destruct args as [|arg args]; [apply Hprint|].
    exists [], (change_dir arg (vfs w)).2.
    rewrite with_stdout_nil.
    destruct (change_dir arg (vfs w)) as [r v'] eqn:E.
    split_and!; [done|constructor|]. right. exists arg. by rewrite E.
  - unfold handle_history.
    destruct (print_history_writes (command_history w) 0 w)
      as (out & -> & Hf).
    exists out, (vfs w). split_and!; [done|done|by left].
  - apply Hprint.
  - apply Hprint.
Qed.

Lemma handle_writes repr e w :
  ∃ out, (handle repr e w).2 = with_stdout out w ∧ Forall no_prompt out.
Proof. destruct e; apply print_writes. Qed.

Lemma process_command_writes repr command w :
  ∃ out v',
    (process_command repr command w).2
    = set_vfs v' (with_stdout out (record_command command w))
    ∧ Forall no_prompt out
    ∧ (v' = vfs w ∨ ∃ arg, v' = (change_dir arg (vfs w)).2).
Proof.
  unfold process_command.
  destruct (PyStr.split_ws command) as [|cmd args].
  { exists [], (vfs w). rewrite with_stdout_nil.
    split_and!; [by destruct w|constructor|by left]. }
  destruct (dispatch_writes (cmd :: args) (record_command command w))
    as (out & v' & Hd & Hf & Hv).
  destruct (dispatch (cmd :: args) (record_command command w))
    as [[[]|e] w']; cbn in Hd; subst w'.
  - by exists out, v'.
  - destruct (handle_writes repr e
                (set_vfs v' (with_stdout out (record_command command w))))
      as (out2 & -> & Hf2).
    exists (out ++ out2)%list, v'. split_and!; [|by apply Forall_app|done].
    unfold set_vfs, with_stdout. cbn. by rewrite app_assoc.
Qed.

(** Every line given to [process_command] is recorded, whatever happens
    to it afterwards. *)
Lemma process_command_history repr command w :
  command_history (process_command repr command w).2
  = (command_history w ++ [ command ])%list.
Proof.
  by destruct (process_command_writes repr command w) as (? & ? & -> & _).
Qed.

Lemma process_command_tty repr command w :
  tty (process_command repr command w).2 = tty w.
Proof.
  by destruct (process_command_writes repr command w) as (? & ? & -> & _).
Qed.

(** What leaves [process_command] is the [UnicodeEncodeError] of a
    [print] in an [except] clause. *)
Lemma process_command_outcome repr command w :
  (process_command repr command w).1 = Ok tt
  ∨ ∃ msg, (process_command repr command w).1 = Raise (UnicodeEncodeError msg).
Proof.
  unfold process_command.
  destruct (PyStr.split_ws command) as [|cmd args]; [by left|].
  destruct (dispatch _ _) as [[[]|e] w']; [by left|].
  destruct e; apply print_outcome.
Qed.

(** On a terminal that has every character no exception leaves
    [process_command]. *)
Lemma process_command_ok repr command w :
  (∀ c, encodable w c = true) →
  (process_command repr command w).1 = Ok tt.
Proof.
  intros Hall. unfold process_command.
  destruct (PyStr.split_ws command) as [|cmd args]; [done|].
  destruct (dispatch_writes (cmd :: args) (record_command command w))
    as (out & v' & Hd & _).
  destruct (dispatch (cmd :: args) (record_command command w))
    as [[[]|e] w']; [done|]. cbn in Hd. subst w'.
  assert (∀ s, writable (set_vfs v' (with_stdout out
                 (record_command command w))) s = true) as Hw.
  { intros s. rewrite (writable_tty w) by done. by apply writable_all. }
  destruct e; cbn [handle]; rewrite print_ok; by repeat constructor.
Qed.

Lemma prompt_ok_all text w :
  (∀ c, encodable w c = true) →
  prompt text w = (Ok tt, emit (Prompted text) w).
Proof. intros Hall. unfold prompt. by rewrite writable_all. Qed.

(** On such a terminal the loop ends at [exit] or at the end of the
    input, nowhere else. *)
Lemma start_outcome repr prefix inputs : ∀ w,
  (∀ c, encodable w c = true) →
  (start repr prefix inputs w).1
  = if decide (Exists (λ c, PyStr.strip_ws c = "exit") inputs)
    then Ok tt else Raise EOFError.
Proof.
  induction inputs as [|command rest IH]; intros w Hall.
  - cbn [start]. rewrite prompt_ok_all by done.
    rewrite decide_False; [done|]. by intros ?%Exists_nil.
  - cbn [start]. rewrite prompt_ok_all by done.
    set (w1 := emit (Prompted (prefix ++ current_path (vfs w) ++ " # ")) w).
    destruct (decide (PyStr.strip_ws command = "exit")) as [Hexit|Hexit].
    + rewrite decide_True; [done|]. by apply Exists_cons_hd.
    + pose proof (process_command_ok repr command w1 Hall) as Hok.
      pose proof (process_command_tty repr command w1) as Htty.
      destruct (process_command repr command w1) as [[[]|e] w'];
        cbn in Hok, Htty; [|done].
      rewrite IH.
      2:{ intros c. unfold encodable. rewrite Htty. apply Hall. }
      destruct (decide (Exists _ rest)) as [Hr|Hr].
      * rewrite decide_True; [done|]. by apply Exists_cons_tl.
      * rewrite decide_False; [done|].
        intros [?|?]%Exists_cons; tauto.
Qed.

(** C8, as amended: every exception the dispatch raises is caught.  A
    line with no word is only recorded; otherwise the outcome is that of
    the dispatch when it returns, that of [print] on the message of a
    [FileNotFoundError], and that of [print] on [Error: ] and the
    message of any other exception.  On a terminal that has every
    character that [print] succeeds: [process_command] returns normally
    and the loop of [start] ends only at [exit] or at the end of the
    input. *)
Theorem process_command_catches_dispatch repr command w :
  match PyStr.split_ws command with
  | [] => process_command repr command w = (Ok tt, record_command command w)
  | parts =>
      match dispatch parts (record_command command w) with
      | (Ok _, w') => process_command repr command w = (Ok tt, w')
      | (Raise (FileNotFoundError msg), w') =>
          process_command repr command w = print [ msg ] w'
      | (Raise e, w') =>
          process_command repr command w
          = print [ "Error: " ++ str_exc repr e ] w'
      end
  end
  ∧ ((∀ c, encodable w c = true) →
     (process_command repr command w).1 = Ok tt
     ∧ ∀ prefix inputs,
         (start repr prefix inputs w).1
         = if decide (Exists (λ c, PyStr.strip_ws c = "exit") inputs)
           then Ok tt else Raise EOFError).
Proof.
  split.
  - unfold process_command.
    destruct (PyStr.split_ws command) as [|cmd args]; [done|].
    destruct (dispatch _ _) as [[[]|e] w']; [done|]. by destruct e.
  - intros Hall. split; [by apply process_command_ok|].
    intros prefix inputs. by apply start_outcome.
Qed.

Lemma process_command_catches_dispatch_witness :
  process_command quoted "cd nope" test_world
  = print [ "No such directory: nope" ] (record_command "cd nope" test_world)
  ∧ (∀ c, encodable test_world c = true)
  ∧ (process_command quoted "cd nope" test_world).1 = Ok tt
  ∧ ∀ prefix inputs,
      (start quoted prefix inputs test_world).1
      = if decide (Exists (λ c, PyStr.strip_ws c = "exit") inputs)
        then Ok tt else Raise EOFError.
Proof.
  assert (∀ c, encodable test_world c = true) as H by (intros c; reflexivity).
  destruct (process_command_catches_dispatch quoted "cd nope" test_world)
    as [H1 H2].
  split; [exact H1|]. split; [exact H|]. exact (H2 H).
Defined.

(** C8, the claim as it stands, fails: on the ASCII terminal the
    command [cd] with the name [e_acute] raises [FileNotFoundError] in
    the dispatch, the [except] clause gives the message to [print],
    [print] raises [UnicodeEncodeError], and that leaves
    [process_command]. *)
Lemma process_command_raises_from_except :
  ¬ (∀ repr command w, (process_command repr command w).1 = Ok tt).
Proof.
  intros Hclaim.
  specialize (Hclaim quoted ("cd " ++ e_acute) ascii_world).
  vm_compute in Hclaim. discriminate Hclaim.
Qed.

Example cd_e_acute_on_ascii :
  process_command quoted ("cd " ++ e_acute) ascii_world
  = (Raise (UnicodeEncodeError "'ascii' codec can't encode character"),
     record_command ("cd " ++ e_acute) ascii_world).
Proof. vm_compute. reflexivity. Qed.

(** A [print] that raises inside the [try] is caught like any other
    exception: the loop of [history] stops at the line it could not
    write, and the message is printed after [Error: ]. *)
Example history_e_acute_on_ascii :
  process_command quoted "history"
    (record_command e_acute ascii_world)
  = (Ok tt,
     with_stdout
       [ Unfinished "1   ";
         Printed "Error: 'ascii' codec can't encode character" ]
       (record_command "history" (record_command e_acute ascii_world))).
Proof. vm_compute. reflexivity. Qed.

Example cd_missing_prints_message :
  stdout (process_command quoted "cd nope" test_world).2
  = [ Printed "No such directory: nope" ].
Proof. vm_compute. reflexivity. Qed.

Example ls_in_a_file_prints_error :
  stdout (run quoted [ "cd file1.txt"; "ls" ] test_world)
  = [ Printed "Error: 'NoneType' object has no attribute 'keys'" ].
Proof. vm_compute. reflexivity. Qed.

Example ls_after_two_cd_prints_error :
  stdout (run quoted [ "cd a"; "cd b"; "ls" ]
            {| vfs := nested_vfs; command_history := []; stdout := [];
               now_text := EmptyString; tty := utf8_terminal |})
  = [ Printed "Error: 'ab'" ].
Proof. vm_compute. reflexivity. Qed.

(** C9: a line of white space only, the empty line included, is added
    to the history as it is; nothing is printed and the file system and
    the clock are as before. *)
Theorem process_command_blank repr command w :
  all_space command = true →
  (process_command repr command w).1 = Ok tt
  ∧ command_history (process_command repr command w).2
    = (command_history w ++ [ command ])%list
  ∧ stdout (process_command repr command w).2 = stdout w
  ∧ vfs (process_command repr command w).2 = vfs w
  ∧ now_text (process_command repr command w).2 = now_text w.
Proof.
  intros Hblank. unfold process_command, PyStr.split_ws.
  by rewrite split_ws_all_space.
Qed.

Lemma process_command_blank_witness :
  all_space "   " = true
  ∧ (process_command quoted "   " test_world).1 = Ok tt
  ∧ command_history (process_command quoted "   " test_world).2 = [ "   " ]
  ∧ stdout (process_command quoted "   " test_world).2 = []
  ∧ vfs (process_command quoted "   " test_world).2 = test_vfs
  ∧ now_text (process_command quoted "   " test_world).2
    = "Wed Jun 12 14:05:09 2024".
Proof.
  split; [reflexivity|].
  exact (process_command_blank quoted "   " test_world eq_refl).
Defined.

Example process_command_empty_line :
  process_command quoted EmptyString test_world
  = (Ok tt, record_command EmptyString test_world).
Proof. reflexivity. Qed.

(** The command [history] is the loop over the record, itself included. *)
Lemma process_command_history_loop repr w :
  process_command repr "history" w
  = match print_history 0 (command_history w ++ [ "history" ])
            (record_command "history" w) with
    | (Ok _, w') => (Ok tt, w')
    | (Raise e, w') => handle repr e w'
    end.
Proof. reflexivity. Qed.

(** On lines the terminal can encode, [history] prints the whole
    record, itself included, numbered from 1. *)
Lemma process_command_history_output repr w :
  Forall (λ c, writable w c = true) (command_history w ++ [ "history" ]) →
  process_command repr "history" w
  = (Ok tt,
     with_stdout (history_lines (command_history w ++ [ "history" ]))
       (record_command "history" w)).
Proof.
  intros Hw. rewrite process_command_history_loop.
  rewrite print_history_ok; [done|].
  eapply Forall_impl; [exact Hw|]. intros x Hx. cbn beta.
  by rewrite (writable_tty w).
Qed.

(** C7, as amended: from an empty history, after [ls] and [pwd] the
    command [history] prints exactly three lines, for the indices 1, 2
    and 3 in order, each made of the index, three spaces (the
    one-character text [" "] between the two single spaces [print] puts
    between its arguments) and the command as typed. *)
Theorem history_after_ls_pwd repr w :
  command_history w = [] →
  (process_command repr "history" (run repr [ "ls"; "pwd" ] w)).1 = Ok tt
  ∧ command_history
      (process_command repr "history" (run repr [ "ls"; "pwd" ] w)).2
    = [ "ls"; "pwd"; "history" ]
  ∧ stdout (process_command repr "history" (run repr [ "ls"; "pwd" ] w)).2
    = (stdout (run repr [ "ls"; "pwd" ] w)
       ++ [ Printed ("1" ++ " " ++ " " ++ " " ++ "ls");
            Printed ("2" ++ " " ++ " " ++ " " ++ "pwd");
            Printed ("3" ++ " " ++ " " ++ " " ++ "history") ])%list.
Proof.
  intros Hempty.
  assert (command_history (run repr [ "ls"; "pwd" ] w) = [ "ls"; "pwd" ]) as Hh.
  { unfold run. cbn [foldl]. by rewrite !process_command_history, Hempty. }
  rewrite process_command_history_output
    by (rewrite Hh; repeat constructor; by apply writable_ascii).
  cbn [fst snd with_stdout record_command command_history stdout].
  by rewrite Hh.
Qed.

Lemma history_after_ls_pwd_witness :
  command_history test_world = []
  ∧ (process_command quoted "history"
       (run quoted [ "ls"; "pwd" ] test_world)).1 = Ok tt
  ∧ command_history
      (process_command quoted "history"
         (run quoted [ "ls"; "pwd" ] test_world)).2
    = [ "ls"; "pwd"; "history" ]
  ∧ stdout (process_command quoted "history"
              (run quoted [ "ls"; "pwd" ] test_world)).2
    = (stdout (run quoted [ "ls"; "pwd" ] test_world)
       ++ [ Printed "1   ls"; Printed "2   pwd"; Printed "3   history" ])%list.
Proof.
  split; [reflexivity|].
  exact (history_after_ls_pwd quoted test_world eq_refl).
Defined.

(** C7, the claim as it stands, fails on [test_world]: no text of two
    characters, alone or between two spaces, is what separates the index
    from the command in the lines [history] prints. *)
Lemma history_separator_not_two_characters :
  ¬ (∃ sep : string,
       String.length sep = 2
       ∧ (stdout (process_command quoted "history"
                    (run quoted [ "ls"; "pwd" ] test_world)).2
          = (stdout (run quoted [ "ls"; "pwd" ] test_world)
             ++ [ Printed ("1" ++ sep ++ "ls");
                  Printed ("2" ++ sep ++ "pwd");
                  Printed ("3" ++ sep ++ "history") ])%list
          ∨ stdout (process_command quoted "history"
                      (run quoted [ "ls"; "pwd" ] test_world)).2
            = (stdout (run quoted [ "ls"; "pwd" ] test_world)
               ++ [ Printed ("1" ++ " " ++ sep ++ " " ++ "ls");
                    Printed ("2" ++ " " ++ sep ++ " " ++ "pwd");
                    Printed ("3" ++ " " ++ sep ++ " " ++ "history") ])%list)).
Proof.
  intros (sep & Hlen & H).
  destruct sep as [|a [|b [|c sep]]]; try discriminate Hlen.
  vm_compute in H. destruct H as [H|H]; discriminate H.
Qed.

(** In a session that has run before, the numbering goes on from the
    lines already recorded. *)
Example history_continues :
  stdout (process_command quoted "history"
            {| vfs := test_vfs; command_history := [ "ls"; "pwd"; "date" ];
               stdout := []; now_text := EmptyString;
               tty := utf8_terminal |}).2
  = [ Printed "1   ls"; Printed "2   pwd"; Printed "3   date";
      Printed "4   history" ].
Proof. vm_compute. reflexivity. Qed.

(** ** What the commands leave alone *)

Lemma change_dir_same_tree path v : same_tree v (change_dir path v).2.
Proof.
  unfold change_dir, same_tree. case_decide; [done|].
  destruct (list_dir v) as [listing|e]; [|done]. by case_decide.
Qed.

(** X1: [change_dir] writes the current path and nothing else: whatever
    the path asked for and whether it raises or not, the archive path,
    the tree and the content table are as before. *)
Theorem change_dir_keeps_tree path v :
  zip_file_path (change_dir path v).2 = zip_file_path v
  ∧ fs (change_dir path v).2 = fs v
  ∧ files_content (change_dir path v).2 = files_content v.
Proof. apply change_dir_same_tree. Qed.

Lemma same_tree_trans v1 v2 v3 :
  same_tree v1 v2 → same_tree v2 v3 → same_tree v1 v3.
Proof. unfold same_tree. intros (-> & -> & ->) (-> & -> & ->). done. Qed.

(** The object after [process_command]: the one before, or the one a
    [change_dir] left. *)
Lemma process_command_vfs repr command w :
  vfs (process_command repr command w).2 = vfs w
  ∨ ∃ arg, vfs (process_command repr command w).2 = (change_dir arg (vfs w)).2.
Proof.
  destruct (process_command_writes repr command w)
    as (out & v' & -> & _ & [->|[arg ->]]); [by left|].
  right. by exists arg.
Qed.

Lemma run_same_tree repr commands w :
  same_tree (vfs w) (vfs (run repr commands w)).
Proof.
  unfold run. revert w. induction commands as [|c commands IH]; intros w.
  - done.
  - cbn [foldl]. eapply same_tree_trans; [|apply IH].
    destruct (process_command_vfs repr c w) as [->| [arg ->]]; [done|].
    apply change_dir_same_tree.
Qed.

(** X2: no sequence of shell commands changes the archive path, the
    tree or the content table the archive was loaded into. *)
Theorem run_keeps_tree repr commands w :
  zip_file_path (vfs (run repr commands w)) = zip_file_path (vfs w)
  ∧ fs (vfs (run repr commands w)) = fs (vfs w)
  ∧ files_content (vfs (run repr commands w)) = files_content (vfs w).
Proof. apply run_same_tree. Qed.

(** ** The current path begins with a slash *)

Lemma parent_dir_rooted cd :
  starts_with_slash cd = true → starts_with_slash (parent_dir cd) = true.
Proof.
  destruct cd as [|c cd]; [done|]. cbn [starts_with_slash].
  intros Hc. unfold PyStr.is_slash in Hc. apply bool_decide_eq_true in Hc as ->.
  unfold parent_dir. cbn [PyStr.split]. rewrite decide_True by done.
  pose proof (split_not_nil "/" cd) as Hne.
  destruct (PyStr.split "/" cd) as [|w ws]; [done|].
  change (removelast (EmptyString :: w :: ws))
    with (EmptyString :: removelast (w :: ws)).
  unfold PyStr.join. destruct (removelast (w :: ws)) as [|x xs]; [done|].
  change (String.concat "/" (EmptyString :: x :: xs))
    with (String "/" (String.concat "/" (x :: xs))).
  done.
Qed.

Lemma change_dir_rooted path v :
  starts_with_slash (current_dir v) = true →
  starts_with_slash (current_dir (change_dir path v).2) = true.
Proof.
  intros Hv. unfold change_dir. case_decide.
  - by apply parent_dir_rooted.
  - destruct (list_dir v) as [listing|e]; [|done].
    case_decide; [|done]. cbn [snd current_dir set_current_dir].
    by destruct (current_dir v).
Qed.

(** X3: after any sequence of shell commands on a freshly loaded
    archive, [current_path] begins with a slash. *)
Theorem current_path_rooted repr path z v commands w :
  new_vfs path z = Ok v →
  vfs w = v →
  starts_with_slash (current_path (vfs (run repr commands w))) = true.
Proof.
  intros Hnew Hw. apply new_vfs_root in Hnew. rewrite <- Hw in Hnew.
  assert (starts_with_slash (current_dir (vfs w)) = true) as Hroot
    by by rewrite Hnew.
  clear Hnew Hw. unfold run, current_path.
  revert w Hroot. induction commands as [|c commands IH]; intros w Hroot.
  - done.
  - cbn [foldl]. apply IH.
    destruct (process_command_vfs repr c w) as [->| [arg ->]]; [done|].
    by apply change_dir_rooted.
Qed.

Lemma current_path_rooted_witness :
  new_vfs "VirtualDevice.zip" test_archive = Ok test_vfs
  ∧ vfs test_world = test_vfs
  ∧ starts_with_slash
      (current_path
         (vfs (run quoted [ "cd dir"; "cd file2.txt"; "cd .." ] test_world)))
    = true.
Proof.
  assert (new_vfs "VirtualDevice.zip" test_archive = Ok test_vfs) as H
    by (vm_compute; reflexivity).
  split; [exact H|]. split; [reflexivity|].
  exact (current_path_rooted quoted _ _ _
           [ "cd dir"; "cd file2.txt"; "cd .." ] test_world H eq_refl).
Defined.

(** ** The history *)

Lemma run_history_app repr commands w :
  command_history (run repr commands w)
  = (command_history w ++ commands)%list.
Proof.
  unfold run. revert w. induction commands as [|c commands IH]; intros w.
  - cbn. by rewrite app_nil_r.
  - cbn [foldl]. rewrite IH, process_command_history.
    by rewrite <- app_assoc.
Qed.

(** X4: the history is the lines given to [process_command], in order
    and as typed, after what was recorded before; no command removes or
    rewrites a line. *)
Theorem run_history repr commands w :
  command_history (run repr commands w)
  = (command_history w ++ commands)%list.
Proof. apply run_history_app. Qed.

Lemma run_tty repr commands w : tty (run repr commands w) = tty w.
Proof.
  unfold run. revert w. induction commands as [|c commands IH]; intros w.
  - done.
  - cbn [foldl]. rewrite IH. apply process_command_tty.
Qed.

Lemma history_lines_lookup history i c :
  history !! i = Some c →
  history_lines history !! i
  = Some (Printed (PyStr.str_of_nat (i + 1) ++ "   " ++ c)).
Proof.
  intros Hi. unfold history_lines. rewrite list_lookup_imap, Hi. done.
Qed.

(** X5: after any commands, when the terminal can encode every
    recorded line, [history] adds one line to the terminal for each
    recorded line, itself included and last: for the recorded line [i],
    counted from 0, the number [i + 1], three spaces and the line as
    typed. *)
Theorem history_prints_all repr commands w i c :
  Forall (λ line, writable w line = true)
    (command_history w ++ commands ++ [ "history" ])%list →
  (command_history w ++ commands ++ [ "history" ])%list !! i = Some c →
  (process_command repr "history" (run repr commands w)).1 = Ok tt
  ∧ stdout (process_command repr "history" (run repr commands w)).2
      !! (length (stdout (run repr commands w)) + i)
    = Some (Printed (PyStr.str_of_nat (i + 1) ++ "   " ++ c))
  ∧ length (stdout (process_command repr "history" (run repr commands w)).2)
    = length (stdout (run repr commands w))
      + (length (command_history w) + length commands + 1).
Proof.
  intros Hw Hi.
  pose proof (run_tty repr commands w) as Htty.
  rewrite process_command_history_output;
    rewrite run_history_app, <- app_assoc.
  2:{ eapply Forall_impl; [exact Hw|]. intros x Hx. cbn beta.
      by rewrite (writable_tty w). }
  cbn [fst snd with_stdout stdout record_command]. split_and!.
  - done.
  - rewrite lookup_app_r by lia.
    replace (length (stdout (run repr commands w)) + i
             - length (stdout (run repr commands w))) with i by lia.
    by apply history_lines_lookup.
  - unfold history_lines. rewrite length_app, length_imap, !length_app.
    cbn [length]. lia.
Qed.

Lemma history_prints_all_witness :
  Forall (λ line, writable test_world line = true)
    ([] ++ [ "ls"; "cd dir" ] ++ [ "history" ])%list
  ∧ ([] ++ [ "ls"; "cd dir" ] ++ [ "history" ])%list !! 1 = Some "cd dir"
  ∧ (process_command quoted "history"
       (run quoted [ "ls"; "cd dir" ] test_world)).1 = Ok tt
  ∧ stdout (process_command quoted "history"
              (run quoted [ "ls"; "cd dir" ] test_world)).2
      !! (length (stdout (run quoted [ "ls"; "cd dir" ] test_world)) + 1)
    = Some (Printed (PyStr.str_of_nat (1 + 1) ++ "   " ++ "cd dir"))
  ∧ length (stdout (process_command quoted "history"
                      (run quoted [ "ls"; "cd dir" ] test_world)).2)
    = length (stdout (run quoted [ "ls"; "cd dir" ] test_world))
      + (length (command_history test_world) + length [ "ls"; "cd dir" ] + 1).
Proof.
  assert (Forall (λ line, writable test_world line = true)
            ([] ++ [ "ls"; "cd dir" ] ++ [ "history" ])%list) as H
    by (repeat constructor).
  split; [exact H|]. split; [reflexivity|].
  exact (history_prints_all quoted [ "ls"; "cd dir" ] test_world 1 "cd dir"
           H eq_refl).
Defined.

(** ** What a loaded archive holds *)

Lemma split_singleton s w :
  PyStr.split "/" s = [ w ] → w = s ∧ slash_free s = true.
Proof.
  revert w. induction s as [|c s IH]; intros w; cbn.
  - by intros [= <-].
  - pose proof (split_not_nil "/" s) as Hne. case_decide as Hc.
    + intros [= _ Hs]. done.
    + destruct (PyStr.split "/" s) as [|w' ws] eqn:E; [done|].
      intros [= <- ->]. destruct (IH w' eq_refl) as [-> ->].
      split; [done|]. unfold PyStr.is_slash. by rewrite bool_decide_eq_false_2.
Qed.

Lemma split_parts_slash_free s :
  Forall (λ w, slash_free w = true) (PyStr.split "/" s).
Proof.
  induction s as [|c s IH]; cbn.
  - by constructor.
  - pose proof (split_not_nil "/" s) as Hne.
    case_decide as Hc; [by constructor|].
    destruct (PyStr.split "/" s) as [|w ws]; [done|].
    apply Forall_cons in IH as [Hw Hws]. constructor; [|done].
    cbn. rewrite Hw. unfold PyStr.is_slash. by rewrite bool_decide_eq_false_2.
Qed.

Lemma first_part_slash_free file : slash_free (first_part file) = true.
Proof.
  unfold first_part. pose proof (split_parts_slash_free file) as H.
  destruct (PyStr.split "/" file); [done|]. by apply Forall_cons in H as [? _].
Qed.

(** Splitting after a first part without a slash. *)
Lemma split_cons f q :
  slash_free f = true →
  PyStr.split "/" (f ++ "/" ++ q) = f :: PyStr.split "/" q.
Proof.
  induction f as [|c f IH]; intros Hf.
  - change (EmptyString ++ "/" ++ q) with (String "/" q). done.
  - change (String c f ++ "/" ++ q) with (String c (f ++ "/" ++ q)).
    cbn in Hf. apply andb_prop in Hf as [Hc Hf].
    cbn [PyStr.split]. rewrite IH by done.
    case_decide as Hd; [|done]. subst c. done.
Qed.

(** The keys of the root after one entry: those before and the first
    part of the entry name, unless the name is empty. *)
Lemma add_entry_root_keys parts d d' k :
  parts ≠ [] →
  add_entry (removelast parts) (List.last parts EmptyString) d = Ok d' →
  is_Some (d' !! k)
  ↔ is_Some (d !! k) ∨ (hd EmptyString parts = k ∧ parts ≠ [ EmptyString ]).
Proof.
  intros Hne. destruct parts as [|a [|b l]]; [done| |].
  - cbn. intros [= <-]. destruct a as [|c a]; cbn.
    + split; [by left|]. by intros [?|[_ ?]].
    + rewrite lookup_insert_is_Some'.
      assert ([ String c a ] ≠ [ EmptyString ]) by discriminate. tauto.
  - change (removelast (a :: b :: l)) with (a :: removelast (b :: l)).
    cbn [hd add_entry]. generalize (List.last (a :: b :: l) EmptyString).
    generalize (removelast (b :: l)). intros rest final.
    assert (a :: b :: l ≠ [ EmptyString ]) as Hlong by discriminate.
    destruct (d !! a) as [[|sub]|] eqn:Ha; cbn.
    + intros Hadd. assert (d' = d) as ->.
      { destruct rest; [|done].
        destruct (PyStr.is_empty final); [|done]. by injection Hadd. }
      split; [by left|]. intros [?|[<- _]]; [done|]. by rewrite Ha.
    + destruct (add_entry _ final sub) as [sub'|e]; [|done].
      intros [= <-]. rewrite lookup_insert_is_Some'. tauto.
    + destruct (add_entry _ final ∅) as [sub'|e]; [|done].
      intros [= <-]. rewrite lookup_insert_is_Some'. tauto.
Qed.

Lemma split_is_empty_name file :
  PyStr.split "/" file = [ EmptyString ] ↔ file = EmptyString.
Proof.
  split; [|by intros ->].
  intros H. by apply split_singleton in H as [<- _].
Qed.

Lemma load_entries_root_keys z names : ∀ st st' k,
  load_entries z names st = Ok st' →
  is_Some (st'.1 !! k)
  ↔ is_Some (st.1 !! k)
    ∨ ∃ file, file ∈ names ∧ file ≠ EmptyString ∧ first_part file = k.
Proof.
  induction names as [|name names IH]; intros st st' k Hload.
  - injection Hload as <-. split; [by left|].
    intros [?|(file & Hin & _)]; [done|]. by apply elem_of_nil in Hin.
  - cbn [load_entries] in Hload.
    destruct (add_entry _ _ st.1) as [tree|e] eqn:Hadd; [|done].
    cbn in Hload.
    apply (add_entry_root_keys _ _ _ k (split_not_nil _ _)) in Hadd.
    rewrite split_is_empty_name in Hadd. fold (first_part name) in Hadd.
    assert (∃ c, load_entries z names (tree, c) = Ok st') as [c Hrest].
    { destruct (PyStr.is_empty _); [by eexists|].
      destruct (read_text z name); [by eexists|done]. }
    rewrite (IH _ _ k Hrest). cbn [fst]. rewrite Hadd. split.
    + intros [[?|[? ?]]|(file & ? & ? & ?)]; [by left|right..].
      * exists name. split_and!; [apply list_elem_of_here|done..].
      * exists file. split_and!; [by apply list_elem_of_further|done..].
    + intros [?|(file & [->|?]%elem_of_cons & ? & ?)].
      * by left; left.
      * left; right. by split.
      * right. by exists file.
Qed.

(** X6: the listing of a freshly loaded archive is there, and a name is
    in it exactly when it is the first part of an entry name that is not
    empty. *)
Theorem root_listing_of_load path z v :
  new_vfs path z = Ok v →
  ∃ listing,
    list_dir v = Ok listing
    ∧ ∀ name, name ∈ listing
        ↔ ∃ file, file ∈ namelist z ∧ file ≠ EmptyString
                  ∧ first_part file = name.
Proof.
  intros Hnew. pose proof (new_vfs_root _ _ _ Hnew) as Hroot.
  exists (folders_of (fs v) ++ files_of (fs v))%list.
  split; [by apply list_dir_resolved, resolve_root|].
  intros name. rewrite elem_of_listing.
  unfold new_vfs in Hnew.
  destruct (load_entries z (namelist z) (∅, ∅)) as [st|e] eqn:Hload; [|done].
  cbn in Hnew. injection Hnew as <-. cbn [fs].
  rewrite (load_entries_root_keys _ _ _ _ name Hload). cbn [fst].
  rewrite lookup_empty. split; [|by right].
  intros [[? [=]]|?]; done.
Qed.

Lemma root_listing_of_load_witness :
  new_vfs "VirtualDevice.zip" test_archive = Ok test_vfs
  ∧ ∃ listing,
      list_dir test_vfs = Ok listing
      ∧ ∀ name, name ∈ listing
          ↔ ∃ file, file ∈ namelist test_archive ∧ file ≠ EmptyString
                    ∧ first_part file = name.
Proof.
  assert (new_vfs "VirtualDevice.zip" test_archive = Ok test_vfs) as H
    by (vm_compute; reflexivity).
  split; [exact H|]. exact (root_listing_of_load _ _ _ H).
Defined.

(** A text of the content table came from an entry that makes a file. *)
Lemma load_entries_content_from z names : ∀ st st' file text,
  load_entries z names st = Ok st' →
  st'.2 !! file = Some text →
  st.2 !! file = Some text
  ∨ (file ∈ names ∧ names_file file = true ∧ read_text z file = Ok text).
Proof.
  induction names as [|name names IH]; intros st st' file text Hload Hc.
  - injection Hload as <-. by left.
  - cbn [load_entries] in Hload.
    destruct (add_entry _ _ st.1) as [tree|e] eqn:Hadd; [|done].
    cbn in Hload.
    destruct (PyStr.is_empty (List.last (PyStr.split "/" name) EmptyString))
      eqn:Hlast.
    + destruct (IH _ _ file text Hload Hc) as [?|(Hin & ? & ?)]; [by left|].
      right. split_and!; [|done..]. by apply list_elem_of_further.
    + destruct (read_text z name) as [text0|e] eqn:Hread0; [|done].
      cbn in Hload.
      destruct (IH _ _ file text Hload Hc) as [Hin|(Hin & ? & ?)].
      * cbn in Hin. destruct (decide (name = file)) as [->|Hne].
        -- rewrite lookup_insert_eq in Hin. injection Hin as ->. right.
           split_and!; [apply list_elem_of_here| |done].
           unfold names_file. by rewrite Hlast.
        -- rewrite lookup_insert_ne in Hin by done. by left.
      * right. split_and!; [|done..]. by apply list_elem_of_further.
Qed.

(** X7: the content table of a loaded archive holds a text under a name
    exactly when the archive lists the name, the last part of the name
    is not empty, and the text is what the archive gives for it. *)
Theorem files_content_of_load path z v file text :
  new_vfs path z = Ok v →
  files_content v !! file = Some text
  ↔ file ∈ namelist z ∧ names_file file = true ∧ read_text z file = Ok text.
Proof.
  intros Hnew. unfold new_vfs in Hnew.
  destruct (load_entries z (namelist z) (∅, ∅)) as [st|e] eqn:Hload; [|done].
  cbn in Hnew. injection Hnew as <-. cbn [files_content]. split.
  - intros Hc.
    destruct (load_entries_content_from _ _ _ _ _ _ Hload Hc) as [H|H];
      [|done]. cbn in H. by rewrite lookup_empty in H.
  - intros (Hin & Hfile & Hread).
    apply (load_entries_content _ _ _ _ _ _ Hload Hread). right.
    split; [done|]. unfold names_file in Hfile.
    by apply negb_true_iff in Hfile.
Qed.

Lemma files_content_of_load_witness :
  new_vfs "VirtualDevice.zip" test_archive = Ok test_vfs
  ∧ (files_content test_vfs !! "dir/file2.txt" = Some "hello"
     ↔ "dir/file2.txt" ∈ namelist test_archive
       ∧ names_file "dir/file2.txt" = true
       ∧ read_text test_archive "dir/file2.txt" = Ok "hello").
Proof.
  assert (new_vfs "VirtualDevice.zip" test_archive = Ok test_vfs) as H
    by (vm_compute; reflexivity).
  split; [exact H|].
  exact (files_content_of_load _ _ _ "dir/file2.txt" "hello" H).
Defined.

(** X8: in a freshly loaded archive [change_dir] on any listed name
    other than [..] succeeds and leaves the path [/name]: the first
    level below the root is reached as asked. *)
Theorem change_dir_first_level path z v listing name :
  new_vfs path z = Ok v →
  list_dir v = Ok listing →
  name ∈ listing →
  name ≠ ".." →
  change_dir name v = (Ok tt, set_current_dir ("/" ++ name) v).
Proof.
  intros Hnew Hl Hin Hne.
  pose proof (new_vfs_root _ _ _ Hnew) as Hroot.
  apply (change_dir_from_root v listing name); try done.
  rewrite (list_dir_resolved v (fs v)) in Hl by by apply resolve_root.
  injection Hl as <-. apply elem_of_listing in Hin.
  unfold new_vfs in Hnew.
  destruct (load_entries z (namelist z) (∅, ∅)) as [st|e] eqn:Hload; [|done].
  cbn in Hnew. injection Hnew as <-. cbn [fs] in Hin.
  apply (load_entries_root_keys _ _ _ _ name Hload) in Hin.
  destruct Hin as [Hin|(file & _ & _ & <-)].
  - cbn in Hin. rewrite lookup_empty in Hin. by destruct Hin.
  - apply first_part_slash_free.
Qed.

Lemma change_dir_first_level_witness :
  new_vfs "VirtualDevice.zip" test_archive = Ok test_vfs
  ∧ list_dir test_vfs = Ok [ "dir"; "file1.txt" ]
  ∧ "dir" ∈ [ "dir"; "file1.txt" ]
  ∧ "dir" ≠ ".."
  ∧ change_dir "dir" test_vfs = (Ok tt, set_current_dir "/dir" test_vfs).
Proof.
  assert (new_vfs "VirtualDevice.zip" test_archive = Ok test_vfs) as H1
    by (vm_compute; reflexivity).
  assert (list_dir test_vfs = Ok [ "dir"; "file1.txt" ]) as H2
    by (vm_compute; reflexivity).
  assert ("dir" ∈ [ "dir"; "file1.txt" ]) as H3 by apply list_elem_of_here.
  assert ("dir" ≠ "..") as H4 by discriminate.
  split; [exact H1|]. split; [exact H2|]. split; [exact H3|].
  split; [exact H4|].
  exact (change_dir_first_level _ _ _ _ "dir" H1 H2 H3 H4).
Defined.

(** A file of the root stays one through every later entry that loads. *)
Lemma add_entry_keeps_file dirparts final d d' f :
  add_entry dirparts final d = Ok d' →
  d !! f = Some File → d' !! f = Some File.
Proof.
  intros Hadd Hf. destruct dirparts as [|part rest]; cbn in Hadd.
  - injection Hadd as <-. destruct (PyStr.is_empty final); [done|].
    destruct (decide (final = f)) as [->|Hne].
    + by rewrite lookup_insert_eq.
    + by rewrite lookup_insert_ne.
  - destruct (decide (part = f)) as [->|Hne].
    + rewrite Hf in Hadd. cbn in Hadd. destruct rest; [|done].
      destruct (PyStr.is_empty final); [|done]. by injection Hadd as <-.
    + destruct (default (Dir ∅) (d !! part)) as [|sub].
      * destruct rest; [|done].
        destruct (PyStr.is_empty final); [|done]. by injection Hadd as <-.
      * destruct (add_entry rest final sub) as [sub'|e]; [|done].
        injection Hadd as <-. by rewrite lookup_insert_ne.
Qed.

Lemma load_entries_step z name names st st' :
  load_entries z (name :: names) st = Ok st' →
  ∃ tree c,
    add_entry (removelast (PyStr.split "/" name))
      (List.last (PyStr.split "/" name) EmptyString) st.1 = Ok tree
    ∧ load_entries z names (tree, c) = Ok st'.
Proof.
  cbn [load_entries]. intros Hload.
  destruct (add_entry _ _ st.1) as [tree|e]; [|done]. cbn in Hload.
  exists tree. destruct (PyStr.is_empty _); [by eexists|].
  destruct (read_text z name); [by eexists|done].
Qed.

Lemma load_entries_keeps_file z names : ∀ st st' f,
  load_entries z names st = Ok st' →
  st.1 !! f = Some File → st'.1 !! f = Some File.
Proof.
  induction names as [|name names IH]; intros st st' f Hload Hf.
  - by injection Hload as <-.
  - apply load_entries_step in Hload as (tree & c & Hadd & Hrest).
    apply (IH _ _ f Hrest). cbn.
    by apply (add_entry_keeps_file _ _ _ _ f Hadd).
Qed.

Lemma load_entries_top_file z names : ∀ st st' f,
  load_entries z names st = Ok st' →
  f ∈ names → slash_free f = true → f ≠ EmptyString →
  st'.1 !! f = Some File.
Proof.
  induction names as [|name names IH]; intros st st' f Hload Hin Hs Hne.
  - by apply elem_of_nil in Hin.
  - apply load_entries_step in Hload as (tree & c & Hadd & Hrest).
    apply elem_of_cons in Hin as [<-|Hin].
    + apply (load_entries_keeps_file _ _ _ _ f Hrest). cbn.
      rewrite split_slash_free in Hadd by done. cbn in Hadd.
      injection Hadd as <-. destruct f; [done|]. cbn.
      by rewrite lookup_insert_eq.
    + by apply (IH _ _ f Hrest).
Qed.

(** X9: an entry whose name holds no slash is a file of the root after
    the load, whatever else the archive lists: [list_dir] shows it
    among the files. *)
Theorem top_level_file_is_file path z v f :
  new_vfs path z = Ok v →
  f ∈ namelist z → slash_free f = true → f ≠ EmptyString →
  fs v !! f = Some File
  ∧ list_dir v = Ok (folders_of (fs v) ++ files_of (fs v))%list
  ∧ f ∈ files_of (fs v).
Proof.
  intros Hnew Hin Hs Hne. pose proof (new_vfs_root _ _ _ Hnew) as Hroot.
  assert (fs v !! f = Some File) as Hf.
  { unfold new_vfs in Hnew.
    destruct (load_entries z (namelist z) (∅, ∅)) as [st|e] eqn:Hload;
      [|done].
    cbn in Hnew. injection Hnew as <-.
    by apply (load_entries_top_file _ _ _ _ f Hload). }
  split_and!; [done|by apply list_dir_resolved, resolve_root|].
  by apply elem_of_files_of.
Qed.

Lemma top_level_file_is_file_witness :
  new_vfs "VirtualDevice.zip" test_archive = Ok test_vfs
  ∧ "file1.txt" ∈ namelist test_archive
  ∧ slash_free "file1.txt" = true
  ∧ "file1.txt" ≠ EmptyString
  ∧ fs test_vfs !! "file1.txt" = Some File
  ∧ list_dir test_vfs
    = Ok (folders_of (fs test_vfs) ++ files_of (fs test_vfs))%list
  ∧ "file1.txt" ∈ files_of (fs test_vfs).
Proof.
  assert (new_vfs "VirtualDevice.zip" test_archive = Ok test_vfs) as H1
    by (vm_compute; reflexivity).
  assert ("file1.txt" ∈ namelist test_archive) as H2
    by apply list_elem_of_here.
  assert ("file1.txt" ≠ EmptyString) as H3 by discriminate.
  split; [exact H1|]. split; [exact H2|]. split; [reflexivity|].
  split; [exact H3|].
  exact (top_level_file_is_file _ _ _ "file1.txt" H1 H2 eq_refl H3).
Defined.

Lemma load_entries_app z names1 names2 : ∀ st st',
  load_entries z (names1 ++ names2) st = Ok st' →
  ∃ st1, load_entries z names1 st = Ok st1
         ∧ load_entries z names2 st1 = Ok st'.
Proof.
  induction names1 as [|name names1 IH]; intros st st' Hload.
  - by exists st.
  - change ((name :: names1) ++ names2)%list
      with (name :: (names1 ++ names2))%list in Hload.
    cbn [load_entries] in *.
    destruct (add_entry _ _ st.1) as [tree|e]; [|done]. cbn in *.
    destruct (PyStr.is_empty _); [by apply IH|].
    destruct (read_text z name); [|done]. by apply IH.
Qed.

(** An entry below a name that is a file of the root does not load. *)
Lemma add_entry_under_file f q d :
  slash_free f = true → q ≠ EmptyString → d !! f = Some File →
  ∃ e, add_entry (removelast (PyStr.split "/" (f ++ "/" ++ q)))
         (List.last (PyStr.split "/" (f ++ "/" ++ q)) EmptyString) d
       = Raise e.
Proof.
  intros Hf Hq Hd. rewrite split_cons by done.
  pose proof (split_not_nil "/" q) as Hne.
  destruct (PyStr.split "/" q) as [|w [|w2 ws]] eqn:E; [done| |].
  - apply split_singleton in E as [-> _].
    cbn. rewrite Hd. cbn. destruct q; [done|]. by eexists.
  - change (removelast (f :: w :: w2 :: ws))
      with (f :: w :: removelast (w2 :: ws)).
    cbn [add_entry]. rewrite Hd. by eexists.
Qed.

(** X10: an archive that lists a name without a slash, and later an
    entry below that name, does not load: the constructor raises. *)
Theorem load_file_then_folder_fails path z pre mid post f q :
  namelist z = (pre ++ f :: mid ++ (f ++ "/" ++ q)%string :: post)%list →
  slash_free f = true → f ≠ EmptyString → q ≠ EmptyString →
  ∃ e, new_vfs path z = Raise e.
Proof.
  intros Hnames Hf Hne Hq.
  destruct (new_vfs path z) as [v|e] eqn:Hnew; [exfalso|by eexists].
  unfold new_vfs in Hnew. rewrite Hnames in Hnew.
  destruct (load_entries z _ (∅, ∅)) as [st|e] eqn:Hload; [|done].
  apply load_entries_app in Hload as (st1 & _ & Hload).
  change (f :: mid ++ (f ++ "/" ++ q)%string :: post)%list
    with ([ f ] ++ (mid ++ (f ++ "/" ++ q)%string :: post))%list in Hload.
  apply load_entries_app in Hload as (st2 & H2 & Hload).
  apply load_entries_app in Hload as (st3 & H3 & Hload).
  assert (st3.1 !! f = Some File) as Hfile.
  { apply (load_entries_keeps_file _ _ _ _ f H3).
    apply (load_entries_top_file _ _ _ _ f H2);
      [apply list_elem_of_here|done..]. }
  apply load_entries_step in Hload as (tree & c & Hadd & _).
  destruct (add_entry_under_file f q st3.1 Hf Hq Hfile) as [e He].
  congruence.
Qed.

Lemma load_file_then_folder_fails_witness :
  namelist {| namelist := [ "dir"; "dir/f" ]; read_text := λ _, Ok "x" |}
  = ([] ++ "dir" :: [] ++ ("dir" ++ "/" ++ "f")%string :: [])%list
  ∧ slash_free "dir" = true ∧ "dir" ≠ EmptyString ∧ "f" ≠ EmptyString
  ∧ ∃ e, new_vfs "VirtualDevice.zip"
           {| namelist := [ "dir"; "dir/f" ]; read_text := λ _, Ok "x" |}
         = Raise e.
Proof.
  assert ("dir" ≠ EmptyString) as H1 by discriminate.
  assert ("f" ≠ EmptyString) as H2 by discriminate.
  split; [reflexivity|]. split; [reflexivity|].
  split; [exact H1|]. split; [exact H2|].
  exact (load_file_then_folder_fails "VirtualDevice.zip"
           {| namelist := [ "dir"; "dir/f" ]; read_text := λ _, Ok "x" |}
           [] [] [] "dir" "f" eq_refl eq_refl H1 H2).
Defined.

(** The other order loads, and the name ends as a file while the text
    below it stays in the content table. *)
Example load_folder_then_file :
  new_vfs "VirtualDevice.zip"
    {| namelist := [ "dir/f"; "dir" ]; read_text := λ _, Ok "x" |}
  = Ok {| zip_file_path := "VirtualDevice.zip"; current_dir := "/";
          fs := {[ "dir" := File ]};
          files_content := {[ "dir/f" := "x"; "dir" := "x" ]} |}.
Proof. vm_compute. reflexivity. Qed.

(** ** read_file *)

Lemma names_file_not_empty s : names_file s = true → s ≠ EmptyString.
Proof. by intros H ->. Qed.

(** A name whose last part is not empty ends without a slash. *)
Lemma rstrip_names_file s :
  names_file s = true → PyStr.rstrip PyStr.is_slash s = s.
Proof.
  induction s as [|c s IH]; [done|].
  unfold names_file in *. cbn [PyStr.split PyStr.rstrip].
  pose proof (split_not_nil "/" s) as Hne.
  destruct (PyStr.split "/" s) as [|w ws] eqn:E; [done|].
  case_decide as Hc.
  - change (List.last (EmptyString :: w :: ws) EmptyString)
      with (List.last (w :: ws) EmptyString).
    intros H. rewrite IH by done.
    destruct s; [cbn in E; by injection E as <- <-|done].
  - destruct ws as [|w2 ws].
    + intros _. apply split_singleton in E as [-> Hs].
      rewrite rstrip_slash_free by done. destruct s; [|done].
      unfold PyStr.is_slash. by rewrite bool_decide_eq_false_2.
    + change (List.last (String c w :: w2 :: ws) EmptyString)
        with (List.last (w :: w2 :: ws) EmptyString).
      intros H. rewrite IH by done.
      destruct s; [cbn in E; by injection E|done].
Qed.

Lemma lstrip_no_slash s :
  starts_with_slash s = false → PyStr.lstrip PyStr.is_slash s = s.
Proof. destruct s as [|c s]; [done|]. cbn. by intros ->. Qed.

(** X11: from the root of a loaded archive, [read_file] on the name of
    any entry that makes a file and does not begin with a slash, at any
    depth, returns the lines of the text the archive gives for it. *)
Theorem read_file_from_root path z v p text :
  new_vfs path z = Ok v →
  p ∈ namelist z →
  names_file p = true →
  starts_with_slash p = false →
  read_text z p = Ok text →
  read_file p v = Ok (PyStr.splitlines text).
Proof.
  intros Hnew Hin Hfile Hslash Hread.
  pose proof (new_vfs_root _ _ _ Hnew) as Hroot.
  assert (files_content v !! p = Some text) as Hc.
  { unfold new_vfs in Hnew.
    destruct (load_entries z (namelist z) (∅, ∅)) as [st|e] eqn:Hload;
      [|done].
    cbn in Hnew. injection Hnew as <-.
    apply (load_entries_content _ _ _ _ _ _ Hload Hread). right.
    split; [done|]. unfold names_file in Hfile.
    by apply negb_true_iff in Hfile. }
  unfold read_file. rewrite Hroot.
  change (PyStr.strip PyStr.is_slash "/" ++ "/" ++ p) with (String "/" p).
  unfold PyStr.strip. cbn [PyStr.lstrip].
  change (PyStr.is_slash "/") with true. cbn match.
  rewrite lstrip_no_slash, rstrip_names_file by done. by rewrite Hc.
Qed.

Lemma read_file_from_root_witness :
  new_vfs "VirtualDevice.zip" nested_archive = Ok nested_vfs
  ∧ "a/b/c.txt" ∈ namelist nested_archive
  ∧ names_file "a/b/c.txt" = true
  ∧ starts_with_slash "a/b/c.txt" = false
  ∧ read_text nested_archive "a/b/c.txt" = Ok EmptyString
  ∧ read_file "a/b/c.txt" nested_vfs = Ok (PyStr.splitlines EmptyString).
Proof.
  assert (new_vfs "VirtualDevice.zip" nested_archive = Ok nested_vfs) as H1
    by (vm_compute; reflexivity).
  assert ("a/b/c.txt" ∈ namelist nested_archive) as H2
    by apply list_elem_of_here.
  split; [exact H1|]. split; [exact H2|]. split; [reflexivity|].
  split; [reflexivity|]. split; [reflexivity|].
  exact (read_file_from_root _ _ _ "a/b/c.txt" EmptyString
           H1 H2 eq_refl eq_refl eq_refl).
Defined.

(** X12: whatever the current directory has become, what [read_file]
    returns is the lines of an entry of the archive, the one named by
    the current path and the argument joined and stripped of outer
    slashes; for any other argument it raises [FileNotFoundError] with
    the message [No such file: ] and the argument. *)
Theorem read_file_only_entries repr path z v commands w p :
  new_vfs path z = Ok v →
  vfs w = v →
  let v' := vfs (run repr commands w) in
  let full_path :=
    PyStr.strip PyStr.is_slash
      (PyStr.strip PyStr.is_slash (current_dir v') ++ "/" ++ p) in
  (∃ text, full_path ∈ namelist z ∧ names_file full_path = true
           ∧ read_text z full_path = Ok text
           ∧ read_file p v' = Ok (PyStr.splitlines text))
  ∨ ((full_path ∉ namelist z ∨ names_file full_path = false)
     ∧ read_file p v' = Raise (FileNotFoundError ("No such file: " ++ p))).
Proof.
  intros Hnew Hw v' full_path.
  pose proof (run_same_tree repr commands w) as (_ & _ & Hc).
  fold v' in Hc. rewrite Hw in Hc.
  unfold read_file. fold full_path. rewrite Hc.
  unfold new_vfs in Hnew.
  destruct (load_entries z (namelist z) (∅, ∅)) as [st|e] eqn:Hload; [|done].
  cbn in Hnew. injection Hnew as <-. cbn [files_content].
  destruct (st.2 !! full_path) as [text|] eqn:Hfp.
  - left. exists text.
    destruct (load_entries_content_from _ _ _ _ _ _ Hload Hfp) as [H|H].
    + cbn in H. by rewrite lookup_empty in H.
    + by destruct H as (? & ? & ?).
  - right. split; [|done].
    destruct (decide (full_path ∈ namelist z)) as [Hin|]; [|by left].
    destruct (names_file full_path) eqn:Hfile; [|by right].
    exfalso.
    assert (∃ text, read_text z full_path = Ok text) as [text Hread].
    { clear Hfp. revert Hload Hin. generalize (∅ : gmap string node,
        ∅ : gmap string string). generalize (namelist z).
      intros names. induction names as [|name names IH]; intros st0 Hload Hin.
      - by apply elem_of_nil in Hin.
      - cbn [load_entries] in Hload.
        destruct (add_entry _ _ st0.1) as [tree|e]; [|done]. cbn in Hload.
        apply elem_of_cons in Hin as [<-|Hin].
        + unfold names_file in Hfile. apply negb_true_iff in Hfile.
          rewrite Hfile in Hload.
          destruct (read_text z full_path) as [text|e]; [by eexists|done].
        + destruct (PyStr.is_empty _); [by apply (IH _ Hload)|].
          destruct (read_text z name); [|done]. by apply (IH _ Hload). }
    assert (st.2 !! full_path = Some text) as Hsome.
    { apply (load_entries_content _ _ _ _ _ _ Hload Hread). right.
      split; [done|]. unfold names_file in Hfile.
      by apply negb_true_iff in Hfile. }
    congruence.
Qed.

Lemma read_file_only_entries_witness :
  new_vfs "VirtualDevice.zip" test_archive = Ok test_vfs
  ∧ vfs test_world = test_vfs
  ∧ ((∃ text,
        "dir/file2.txt" ∈ namelist test_archive
        ∧ names_file "dir/file2.txt" = true
        ∧ read_text test_archive "dir/file2.txt" = Ok text
        ∧ read_file "file2.txt" (vfs (run quoted [ "cd dir" ] test_world))
          = Ok (PyStr.splitlines text))
     ∨ (("dir/file2.txt" ∉ namelist test_archive
         ∨ names_file "dir/file2.txt" = false)
        ∧ read_file "file2.txt" (vfs (run quoted [ "cd dir" ] test_world))
          = Raise (FileNotFoundError "No such file: file2.txt"))).
Proof.
  assert (new_vfs "VirtualDevice.zip" test_archive = Ok test_vfs) as H
    by (vm_compute; reflexivity).
  split; [exact H|]. split; [reflexivity|].
  exact (read_file_only_entries quoted _ _ _ [ "cd dir" ] test_world
           "file2.txt" H eq_refl).
Defined.

(** ** Going down and up *)

Lemma set_current_dir_twice a b v :
  set_current_dir a (set_current_dir b v) = set_current_dir a v.
Proof. done. Qed.

(** X13: from the root, entering a listed name and asking for [..]
    gives back the object one started with. *)
Theorem change_dir_there_and_back v listing name :
  current_dir v = "/" →
  list_dir v = Ok listing →
  name ∈ listing →
  name ≠ ".." →
  slash_free name = true →
  change_dirs [ name; ".." ] v = (Ok tt, v).
Proof.
  intros Hroot Hl Hin Hne Hs. cbn [change_dirs].
  rewrite (change_dir_from_root v listing name) by done.
  unfold change_dir. rewrite decide_True by done.
  cbn [current_dir set_current_dir].
  change ("/" ++ name) with (EmptyString ++ "/" ++ name).
  rewrite parent_dir_snoc by done. cbn [PyStr.is_empty].
  rewrite set_current_dir_twice. f_equal.
  destruct v. cbn in Hroot. by subst.
Qed.

Lemma change_dir_there_and_back_witness :
  current_dir test_vfs = "/"
  ∧ list_dir test_vfs = Ok [ "dir"; "file1.txt" ]
  ∧ "dir" ∈ [ "dir"; "file1.txt" ]
  ∧ "dir" ≠ ".."
  ∧ slash_free "dir" = true
  ∧ change_dirs [ "dir"; ".." ] test_vfs = (Ok tt, test_vfs).
Proof.
  assert (list_dir test_vfs = Ok [ "dir"; "file1.txt" ]) as H2
    by (vm_compute; reflexivity).
  assert ("dir" ∈ [ "dir"; "file1.txt" ]) as H3 by apply list_elem_of_here.
  assert ("dir" ≠ "..") as H4 by discriminate.
  split; [reflexivity|]. split; [exact H2|]. split; [exact H3|].
  split; [exact H4|]. split; [reflexivity|].
  exact (change_dir_there_and_back test_vfs _ "dir" eq_refl H2 H3 H4 eq_refl).
Defined.

Lemma change_dirs_up_at_root k : ∀ v,
  current_dir v = "/" → change_dirs (replicate k "..") v = (Ok tt, v).
Proof.
  induction k as [|k IH]; intros v Hroot; [done|].
  cbn [replicate change_dirs]. unfold change_dir.
  rewrite decide_True by done. rewrite Hroot.
  change (parent_dir "/") with "/". rewrite <- Hroot.
  rewrite set_current_dir_id. by apply IH.
Qed.

(** X14: from [/s1/.../sn], asking for [..] n times or more ends at the
    root, with no exception on the way. *)
Theorem change_dir_up_to_root segs k : ∀ v,
  Forall (λ s, slash_free s = true) segs →
  current_dir v = path_of segs →
  change_dirs (replicate (length segs + k) "..") v
  = (Ok tt, set_current_dir "/" v).
Proof.
  induction segs as [|s segs IH] using rev_ind; intros v Hs Hcd.
  - cbn [length Nat.add]. rewrite change_dirs_up_at_root by done.
    f_equal. destruct v. cbn in Hcd. by subst.
  - apply Forall_app in Hs as [Hsegs [Hs _]%Forall_cons].
    rewrite length_app. cbn [length].
    replace (length segs + 1 + k) with (S (length segs + k)) by lia.
    cbn [replicate change_dirs]. unfold change_dir.
    rewrite decide_True by done. rewrite Hcd, path_of_snoc by done.
    rewrite IH by done. by rewrite set_current_dir_twice.
Qed.

Lemma change_dir_up_to_root_witness :
  Forall (λ s, slash_free s = true) [ "dir"; "sub" ]
  ∧ current_dir (set_current_dir "/dir/sub" test_vfs)
    = path_of [ "dir"; "sub" ]
  ∧ change_dirs (replicate (length [ "dir"; "sub" ] + 1) "..")
      (set_current_dir "/dir/sub" test_vfs)
    = (Ok tt, set_current_dir "/" (set_current_dir "/dir/sub" test_vfs)).
Proof.
  assert (Forall (λ s, slash_free s = true) [ "dir"; "sub" ]) as H
    by (repeat constructor).
  split; [exact H|]. split; [reflexivity|].
  exact (change_dir_up_to_root [ "dir"; "sub" ] 1
           (set_current_dir "/dir/sub" test_vfs) H eq_refl).
Defined.

(** ** Resolving the current path *)

Lemma walk_app parts1 parts2 : ∀ dirs,
  walk (parts1 ++ parts2) dirs = (dirs' ← walk parts1 dirs; walk parts2 dirs').
Proof.
  induction parts1 as [|part parts1 IH]; intros dirs; [done|].
  cbn [app walk]. destruct (PyStr.is_empty part); [apply IH|].
  destruct (subscript dirs part) as [d|e]; [|done]. apply IH.
Qed.

Lemma rooted_join segs :
  segs ≠ [] → rooted segs = "/" ++ PyStr.join "/" segs.
Proof.
  induction segs as [|x [|y l] IH]; intros Hne; [done| |].
  - cbn. by rewrite string_app_nil_r.
  - change (rooted (x :: y :: l)) with ("/" ++ x ++ rooted (y :: l)).
    by rewrite IH.
Qed.

Lemma split_join segs :
  segs ≠ [] → Forall (λ x, slash_free x = true) segs →
  PyStr.split "/" (PyStr.join "/" segs) = segs.
Proof.
  induction segs as [|x [|y l] IH]; intros Hne Hs; [done| |].
  - apply Forall_cons in Hs as [Hx _]. by apply split_slash_free.
  - apply Forall_cons in Hs as [Hx Hs].
    change (PyStr.join "/" (x :: y :: l))
      with (x ++ "/" ++ PyStr.join "/" (y :: l)).
    rewrite split_cons by done. by rewrite IH.
Qed.

Lemma last_not_empty (segs : list string) :
  segs ≠ [] → Forall (λ x, x ≠ EmptyString) segs →
  List.last segs EmptyString ≠ EmptyString.
Proof.
  induction segs as [|x [|y l] IH]; intros Hne Hs; [done| |].
  - by apply Forall_cons in Hs as [Hx _].
  - apply Forall_cons in Hs as [_ Hs]. by apply IH.
Qed.

(** [strip("/")] on [/s1/.../sn] leaves [s1/.../sn]. *)
Lemma strip_rooted segs :
  segs ≠ [] →
  Forall (λ x, slash_free x = true ∧ x ≠ EmptyString) segs →
  PyStr.strip PyStr.is_slash (rooted segs) = PyStr.join "/" segs.
Proof.
  intros Hne Hs. rewrite rooted_join by done.
  assert (Forall (λ x, slash_free x = true) segs) as Hs1
    by (eapply Forall_impl; [exact Hs|]; by intros ? [? _]).
  assert (Forall (λ x, x ≠ EmptyString) segs) as Hs2
    by (eapply Forall_impl; [exact Hs|]; by intros ? [_ ?]).
  unfold PyStr.strip.
  change ("/" ++ PyStr.join "/" segs) with (String "/" (PyStr.join "/" segs)).
  cbn [PyStr.lstrip]. change (PyStr.is_slash "/") with true. cbn match.
  rewrite lstrip_no_slash.
  - apply rstrip_names_file. unfold names_file. rewrite split_join by done.
    pose proof (last_not_empty segs Hne Hs2).
    by destruct (List.last segs EmptyString).
  - destruct segs as [|x l]; [done|].
    apply Forall_cons in Hs as [[Hx Hx'] _].
    destruct x as [|c x]; [done|]. cbn in Hx.
    apply andb_prop in Hx as [Hc _]. apply negb_true_iff in Hc.
    by destruct l.
Qed.

Lemma resolve_path_of v segs :
  Forall (λ x, slash_free x = true ∧ x ≠ EmptyString) segs →
  resolve (set_current_dir (path_of segs) v) = walk segs (Dir (fs v)).
Proof.
  intros Hs. unfold resolve. cbn [current_dir set_current_dir fs].
  destruct segs as [|x l]; [done|].
  cbn [path_of]. rewrite strip_rooted, split_join; [done|done| |done|done].
  eapply Forall_impl; [exact Hs|]. by intros ? [? _].
Qed.

(** X15: with segments that are not empty and hold no slash, the path
    [/s1/.../sn/s] resolves to what indexing by [s] gives in the node
    that [/s1/.../sn] resolves to, and raises what that indexing or that
    resolution raises: [KeyError] for a missing name, [TypeError] below
    a file. *)
Theorem resolve_deeper v segs s :
  Forall (λ x, slash_free x = true ∧ x ≠ EmptyString) (segs ++ [ s ]) →
  resolve (set_current_dir (path_of (segs ++ [ s ])) v)
  = (dirs ← resolve (set_current_dir (path_of segs) v); subscript dirs s).
Proof.
  intros Hs. pose proof Hs as Hs'.
  apply Forall_app in Hs' as [Hsegs Hlast].
  apply Forall_cons in Hlast as [[_ Hne] _].
  rewrite !resolve_path_of by done. rewrite walk_app.
  destruct (walk segs (Dir (fs v))) as [d|e]; [|done]. cbn.
  destruct s; [done|]. cbn. by destruct (subscript d _).
Qed.

Lemma resolve_deeper_witness :
  Forall (λ x, slash_free x = true ∧ x ≠ EmptyString) ([ "a" ] ++ [ "b" ])
  ∧ resolve (set_current_dir (path_of ([ "a" ] ++ [ "b" ])) nested_vfs)
    = (dirs ← resolve (set_current_dir (path_of [ "a" ]) nested_vfs);
       subscript dirs "b").
Proof.
  assert (Forall (λ x, slash_free x = true ∧ x ≠ EmptyString)
            ([ "a" ] ++ [ "b" ])) as H
    by (repeat constructor; discriminate).
  split; [exact H|]. exact (resolve_deeper nested_vfs [ "a" ] "b" H).
Defined.

Example resolve_two_levels :
  resolve (set_current_dir "/a/b" nested_vfs) = Ok (Dir {[ "c.txt" := File ]})
  ∧ list_dir (set_current_dir "/a/b" nested_vfs) = Ok [ "c.txt" ]
  ∧ list_dir (set_current_dir "/a/c" nested_vfs) = Raise (KeyError "c")
  ∧ list_dir (set_current_dir "/a/b/c.txt/d" nested_vfs)
    = Raise none_subscript.
Proof. split_and!; vm_compute; reflexivity. Qed.

Lemma new_vfs_root_key_slash_free path z v name :
  new_vfs path z = Ok v → is_Some (fs v !! name) → slash_free name = true.
Proof.
  intros Hnew Hin. unfold new_vfs in Hnew.
  destruct (load_entries z (namelist z) (∅, ∅)) as [st|e] eqn:Hload; [|done].
  cbn in Hnew. injection Hnew as <-. cbn [fs] in Hin.
  apply (load_entries_root_keys _ _ _ _ name Hload) in Hin.
  destruct Hin as [Hin|(file & _ & _ & <-)].
  - cbn in Hin. rewrite lookup_empty in Hin. by destruct Hin.
  - apply first_part_slash_free.
Qed.

(** X16: in a freshly loaded archive, [change_dir] on a folder of the
    root, its name neither empty nor [..], succeeds, and [list_dir]
    then returns the folders and the files of that folder. *)
Theorem list_dir_after_first_level path z v name d :
  new_vfs path z = Ok v →
  fs v !! name = Some (Dir d) →
  name ≠ ".." → name ≠ EmptyString →
  (change_dir name v).1 = Ok tt
  ∧ current_path (change_dir name v).2 = "/" ++ name
  ∧ list_dir (change_dir name v).2 = Ok (folders_of d ++ files_of d)%list.
Proof.
  intros Hnew Hd Hne Hne'.
  pose proof (new_vfs_root _ _ _ Hnew) as Hroot.
  assert (slash_free name = true) as Hs
    by (apply (new_vfs_root_key_slash_free _ _ _ _ Hnew); by rewrite Hd).
  rewrite (change_dir_from_root v (folders_of (fs v) ++ files_of (fs v))%list
             name);
    [|done|done|done|by apply list_dir_resolved, resolve_root
     |apply elem_of_listing; by rewrite Hd].
  split_and!; [done|done|]. cbn [snd]. apply list_dir_resolved.
  unfold resolve. cbn [current_dir set_current_dir fs].
  rewrite strip_slash_name, split_slash_free by done.
  cbn. destruct name; [done|]. cbn. by rewrite Hd.
Qed.

Lemma list_dir_after_first_level_witness :
  new_vfs "VirtualDevice.zip" test_archive = Ok test_vfs
  ∧ fs test_vfs !! "dir" = Some (Dir {[ "file2.txt" := File ]})
  ∧ "dir" ≠ ".." ∧ "dir" ≠ EmptyString
  ∧ (change_dir "dir" test_vfs).1 = Ok tt
  ∧ current_path (change_dir "dir" test_vfs).2 = "/" ++ "dir"
  ∧ list_dir (change_dir "dir" test_vfs).2
    = Ok (folders_of {[ "file2.txt" := File ]}
          ++ files_of {[ "file2.txt" := File ]})%list.
Proof.
  assert (new_vfs "VirtualDevice.zip" test_archive = Ok test_vfs) as H1
    by (vm_compute; reflexivity).
  assert (fs test_vfs !! "dir" = Some (Dir {[ "file2.txt" := File ]})) as H2
    by (vm_compute; reflexivity).
  assert ("dir" ≠ "..") as H3 by discriminate.
  assert ("dir" ≠ EmptyString) as H4 by discriminate.
  split; [exact H1|]. split; [exact H2|]. split; [exact H3|].
  split; [exact H4|].
  exact (list_dir_after_first_level _ _ _ "dir" _ H1 H2 H3 H4).
Defined.

(** ** More on the shell *)

(** X17: [cd] on a name that the listing lacks does what [print] does
    on [No such directory: ] and the name, after the line is recorded:
    on a terminal that can encode that text it is printed and the
    command returns normally, otherwise the [UnicodeEncodeError] of
    [print] leaves [process_command].  The file system is as before in
    both cases, and further words on the line are ignored. *)
Theorem cd_missing_reports repr command w name rest listing :
  PyStr.split_ws command = "cd" :: name :: rest →
  name ≠ ".." →
  list_dir (vfs w) = Ok listing →
  name ∉ listing →
  process_command repr command w
  = print [ "No such directory: " ++ name ] (record_command command w)
  ∧ vfs (process_command repr command w).2 = vfs w
  ∧ (writable w ("No such directory: " ++ name) = true →
     process_command repr command w
     = (Ok tt,
        emit (Printed ("No such directory: " ++ name))
          (record_command command w)))
  ∧ (writable w ("No such directory: " ++ name) = false →
     process_command repr command w
     = (Raise (UnicodeEncodeError
                 (encode_error (tty w) ("No such directory: " ++ name))),
        record_command command w)).
Proof.
  intros Hparts Hne Hl Hnotin.
  assert (process_command repr command w
          = print [ "No such directory: " ++ name ]
              (record_command command w)) as Hpc.
  { unfold process_command. rewrite Hparts.
    unfold dispatch. rewrite decide_False by done.
    rewrite decide_False by done. rewrite decide_True by done.
    cbn [vfs record_command]. unfold change_dir.
    rewrite decide_False by done. rewrite Hl.
    rewrite decide_False by done. cbn [handle str_exc].
    change (set_vfs (vfs w) (record_command command w))
      with (set_vfs (vfs (record_command command w))
              (record_command command w)).
    by rewrite set_vfs_id. }
  rewrite Hpc. split_and!.
  - done.
  - by destruct (print_writes [ "No such directory: " ++ name ]
                   (record_command command w)) as (out & -> & _).
  - intros Hw. rewrite print_ok; [done|].
    constructor; [|constructor]. by rewrite (writable_tty w).
  - intros Hw. unfold print. cbn [print_pieces write_pieces].
    by rewrite (writable_tty w), Hw.
Qed.

Lemma cd_missing_reports_witness :
  PyStr.split_ws "cd nope now" = "cd" :: "nope" :: [ "now" ]
  ∧ ("nope" ≠ "..")
  ∧ (list_dir (vfs test_world) = Ok [ "dir"; "file1.txt" ])
  ∧ ("nope" ∉ [ "dir"; "file1.txt" ])
  ∧ writable test_world ("No such directory: " ++ "nope") = true
  ∧ process_command quoted "cd nope now" test_world
    = (Ok tt,
       emit (Printed ("No such directory: " ++ "nope"))
         (record_command "cd nope now" test_world))
  ∧ PyStr.split_ws ("cd " ++ e_acute) = "cd" :: e_acute :: []
  ∧ writable ascii_world ("No such directory: " ++ e_acute) = false
  ∧ process_command quoted ("cd " ++ e_acute) ascii_world
    = (Raise (UnicodeEncodeError
                (encode_error (tty ascii_world)
                   ("No such directory: " ++ e_acute))),
       record_command ("cd " ++ e_acute) ascii_world).
Proof.
  assert ("nope" ≠ "..") as H1 by discriminate.
  assert (list_dir (vfs test_world) = Ok [ "dir"; "file1.txt" ]) as H2
    by (vm_compute; reflexivity).
  assert ("nope" ∉ [ "dir"; "file1.txt" ]) as H3
    by (rewrite !not_elem_of_cons; split_and!;
        [discriminate..|apply not_elem_of_nil]).
  assert (e_acute ≠ "..") as H4 by discriminate.
  assert (e_acute ∉ [ "dir"; "file1.txt" ]) as H5
    by (rewrite !not_elem_of_cons; split_and!;
        [discriminate..|apply not_elem_of_nil]).
  destruct (cd_missing_reports quoted "cd nope now" test_world "nope"
              [ "now" ] _ eq_refl H1 H2 H3) as (_ & _ & Hgood & _).
  destruct (cd_missing_reports quoted ("cd " ++ e_acute) ascii_world e_acute
              [] _ eq_refl H4 H2 H5) as (_ & _ & _ & Hbad).
  split; [reflexivity|]. split; [exact H1|]. split; [exact H2|].
  split; [exact H3|]. split; [reflexivity|]. split; [exact (Hgood eq_refl)|].
  split; [reflexivity|]. split; [reflexivity|]. exact (Hbad eq_refl).
Defined.

Lemma prompt_outcome text w :
  (prompt text w = (Ok tt, emit (Prompted text) w)
   ∧ writable w text = true)
  ∨ (∃ msg, prompt text w = (Raise (UnicodeEncodeError msg), w)).
Proof.
  unfold prompt. destruct (writable w text); [by left|].
  right. by eexists.
Qed.

Lemma start_records repr prefix inputs : ∀ w,
  ∃ lines,
    lines `prefix_of` before_exit inputs
    ∧ command_history (start repr prefix inputs w).2
      = (command_history w ++ lines)%list
    ∧ ((start repr prefix inputs w).1 = Ok tt
       ∨ (start repr prefix inputs w).1 = Raise EOFError →
       lines = before_exit inputs).
Proof.
  induction inputs as [|command rest IH]; intros w.
  - exists []. cbn [start before_exit].
    destruct (prompt_outcome (prefix ++ current_path (vfs w) ++ " # ") w)
      as [[-> _]|[msg ->]]; cbn; by rewrite app_nil_r.
  - cbn [start before_exit].
    destruct (prompt_outcome (prefix ++ current_path (vfs w) ++ " # ") w)
      as [[-> _]|[msg ->]].
    2:{ exists []. cbn. rewrite app_nil_r. split_and!; [|done|].
        - apply prefix_nil.
        - by intros [?|?]. }
    set (w1 := emit (Prompted (prefix ++ current_path (vfs w) ++ " # ")) w).
    destruct (decide (PyStr.strip_ws command = "exit")) as [Hexit|Hexit].
    { exists []. cbn. by rewrite app_nil_r. }
    pose proof (process_command_outcome repr command w1) as Hout.
    pose proof (process_command_history repr command w1) as Hh.
    destruct (process_command repr command w1) as [[[]|e] w'];
      cbn in Hout, Hh.
    + destruct (IH w') as (lines & Hpre & Hhist & Hfull).
      exists (command :: lines). split_and!.
      * by apply prefix_cons.
      * rewrite Hhist, Hh. cbn. by rewrite <- app_assoc.
      * intros Hend. by rewrite Hfull.
    + exists [ command ]. split_and!.
      * apply prefix_cons, prefix_nil.
      * done.
      * destruct Hout as [?|[msg Hmsg]]; [done|]. cbn [fst].
        rewrite Hmsg. by intros [?|?].
Qed.

(** X18: the loop records lines as typed, in order, from the first on
    and none from the [exit] line on.  When it ends at [exit] or at the
    end of the input, and so always on a terminal that has every
    character, it has recorded exactly the lines before the first
    [exit]. *)
Theorem start_records_before_exit repr prefix inputs w :
  (∃ lines,
     lines `prefix_of` before_exit inputs
     ∧ command_history (start repr prefix inputs w).2
       = (command_history w ++ lines)%list)
  ∧ ((start repr prefix inputs w).1 = Ok tt
     ∨ (start repr prefix inputs w).1 = Raise EOFError →
     command_history (start repr prefix inputs w).2
     = (command_history w ++ before_exit inputs)%list)
  ∧ ((∀ c, encodable w c = true) →
     command_history (start repr prefix inputs w).2
     = (command_history w ++ before_exit inputs)%list).
Proof.
  destruct (start_records repr prefix inputs w)
    as (lines & Hpre & Hhist & Hfull).
  split_and!.
  - by exists lines.
  - intros Hend. by rewrite Hhist, Hfull.
  - intros Hall. rewrite Hhist, Hfull; [done|].
    rewrite start_outcome by done. case_decide; [by left|by right].
Qed.

Lemma start_records_before_exit_witness :
  (∃ lines,
     lines `prefix_of` before_exit [ "ls"; "cd dir"; " exit "; "pwd" ]
     ∧ command_history
         (start quoted EmptyString [ "ls"; "cd dir"; " exit "; "pwd" ]
            test_world).2
       = (command_history test_world ++ lines)%list)
  ∧ ((start quoted EmptyString [ "ls"; "cd dir"; " exit "; "pwd" ]
        test_world).1 = Ok tt
     ∧ command_history
         (start quoted EmptyString [ "ls"; "cd dir"; " exit "; "pwd" ]
            test_world).2
       = (command_history test_world
          ++ before_exit [ "ls"; "cd dir"; " exit "; "pwd" ])%list)
  ∧ ((∀ c, encodable test_world c = true)
     ∧ command_history
         (start quoted EmptyString [ "ls"; "cd dir"; " exit "; "pwd" ]
            test_world).2
       = (command_history test_world
          ++ before_exit [ "ls"; "cd dir"; " exit "; "pwd" ])%list).
Proof.
  assert ((start quoted EmptyString [ "ls"; "cd dir"; " exit "; "pwd" ]
             test_world).1 = Ok tt) as Hend by (vm_compute; reflexivity).
  assert (∀ c, encodable test_world c = true) as Hall
    by (intros c; reflexivity).
  destruct (start_records_before_exit quoted EmptyString
              [ "ls"; "cd dir"; " exit "; "pwd" ] test_world)
    as (H1 & H2 & H3).
  split; [exact H1|]. split.
  - split; [exact Hend|]. exact (H2 (or_introl Hend)).
  - split; [exact Hall|]. exact (H3 Hall).
Defined.

Lemma process_command_rooted repr command w :
  starts_with_slash (current_dir (vfs w)) = true →
  starts_with_slash (current_dir (vfs (process_command repr command w).2))
  = true.
Proof.
  intros Hroot.
  destruct (process_command_vfs repr command w) as [->| [arg ->]]; [done|].
  by apply change_dir_rooted.
Qed.

(** What [process_command] writes comes after what was there, and is
    no prompt. *)
Lemma process_command_stdout repr command w :
  ∃ out, stdout (process_command repr command w).2 = (stdout w ++ out)%list
         ∧ Forall no_prompt out.
Proof.
  destruct (process_command_writes repr command w)
    as (out & v' & -> & Hf & _). by exists out.
Qed.

Lemma no_prompt_ok prefix e : no_prompt e → prompt_ok prefix e.
Proof. by destruct e. Qed.

(** X19: when the current path begins with a slash, everything [start]
    writes is printed text or a prompt made of the prefix, a path that
    begins with a slash, and [ # ]. *)
Theorem start_prompts repr prefix inputs : ∀ w,
  starts_with_slash (current_dir (vfs w)) = true →
  ∃ out, stdout (start repr prefix inputs w).2 = (stdout w ++ out)%list
         ∧ Forall (prompt_ok prefix) out.
Proof.
  induction inputs as [|command rest IH]; intros w Hroot.
  - cbn [start].
    destruct (prompt_outcome (prefix ++ current_path (vfs w) ++ " # ") w)
      as [[-> _]|[msg ->]].
    + cbn. eexists. split; [done|].
      constructor; [|constructor]. by exists (current_path (vfs w)).
    + exists []. cbn. by rewrite app_nil_r.
  - cbn [start].
    destruct (prompt_outcome (prefix ++ current_path (vfs w) ++ " # ") w)
      as [[-> _]|[msg ->]].
    2:{ exists []. cbn. by rewrite app_nil_r. }
    set (w1 := emit (Prompted (prefix ++ current_path (vfs w) ++ " # ")) w).
    assert (prompt_ok prefix (Prompted (prefix ++ current_path (vfs w) ++ " # ")))
      as Hp by by exists (current_path (vfs w)).
    destruct (decide (PyStr.strip_ws command = "exit")) as [Hexit|Hexit].
    + cbn. eexists. split; [done|]. by constructor.
    + pose proof (process_command_rooted repr command w1 Hroot) as Hroot'.
      destruct (process_command_stdout repr command w1) as (out1 & Ho1 & Hf1).
      assert (Forall (prompt_ok prefix) out1) as Hf1'.
      { eapply Forall_impl; [exact Hf1|]. intros e. apply no_prompt_ok. }
      destruct (process_command repr command w1) as [[[]|e] w'];
        cbn in Hroot', Ho1.
      * destruct (IH w' Hroot') as (out2 & Ho2 & Hf2).
        exists (Prompted (prefix ++ current_path (vfs w) ++ " # ")
                :: out1 ++ out2)%list.
        split.
        -- rewrite Ho2, Ho1. cbn. by rewrite <- !app_assoc.
        -- constructor; [done|]. by apply Forall_app.
      * exists (Prompted (prefix ++ current_path (vfs w) ++ " # ")
                :: out1)%list.
        split.
        -- cbn [snd]. rewrite Ho1. cbn. by rewrite <- !app_assoc.
        -- by constructor.
Qed.

Lemma start_prompts_witness :
  starts_with_slash (current_dir (vfs test_world)) = true
  ∧ ∃ out,
      stdout (start quoted "user@host:" [ "cd dir"; "ls"; "exit" ]
                test_world).2
      = (stdout test_world ++ out)%list
      ∧ Forall (prompt_ok "user@host:") out.
Proof.
  split; [reflexivity|].
  exact (start_prompts quoted "user@host:" [ "cd dir"; "ls"; "exit" ]
           test_world eq_refl).
Defined.

Example start_session :
  stdout (start quoted "user@host:" [ "cd dir"; "ls"; "exit"; "pwd" ]
            test_world).2
  = [ Prompted "user@host:/ # "; Prompted "user@host:/dir # ";
      Printed "file2.txt"; Prompted "user@host:/dir # " ].
Proof. vm_compute. reflexivity. Qed.

(** On the ASCII terminal a name it cannot encode ends the loop: the
    line is recorded, nothing is written, the later line is not read. *)
Example start_session_on_ascii :
  start quoted EmptyString [ "cd " ++ e_acute; "ls" ] ascii_world
  = (Raise (UnicodeEncodeError "'ascii' codec can't encode character"),
     record_command ("cd " ++ e_acute) (emit (Prompted "/ # ") ascii_world)).
Proof. vm_compute. reflexivity. Qed.

Lemma lstrip_all_space a s :
  all_space a = true →
  PyStr.lstrip PyStr.is_space (a ++ s) = PyStr.lstrip PyStr.is_space s.
Proof.
  induction a as [|c a IH]; [done|]. cbn [all_space].
  intros [Hc Ha]%andb_prop.
  change (String c a ++ s) with (String c (a ++ s)).
  cbn [PyStr.lstrip]. rewrite Hc. by apply IH.
Qed.

Lemma rstrip_all_space_nil b :
  all_space b = true → PyStr.rstrip PyStr.is_space b = EmptyString.
Proof.
  induction b as [|c b IH]; [done|]. cbn [all_space].
  intros [Hc Hb]%andb_prop. cbn [PyStr.rstrip]. by rewrite IH, Hc.
Qed.

Lemma rstrip_all_space s b :
  all_space b = true →
  PyStr.rstrip PyStr.is_space (s ++ b) = PyStr.rstrip PyStr.is_space s.
Proof.
  intros Hb. induction s as [|c s IH].
  - by apply rstrip_all_space_nil.
  - change (String c s ++ b) with (String c (s ++ b)).
    cbn [PyStr.rstrip]. by rewrite IH.
Qed.

(** X20: a line that is [exit] between any white space ends the loop at
    once: once the prompt is written nothing more is, the line is not
    recorded and the lines after it are not read.  The prompt is the
    only thing that can fail, when the terminal cannot encode it. *)
Theorem start_exit_padded repr prefix a b rest w :
  all_space a = true →
  all_space b = true →
  start repr prefix ((a ++ "exit" ++ b) :: rest) w
  = if writable w (prefix ++ current_path (vfs w) ++ " # ")
    then (Ok tt, emit (Prompted (prefix ++ current_path (vfs w) ++ " # ")) w)
    else (Raise (UnicodeEncodeError
                   (encode_error (tty w)
                      (prefix ++ current_path (vfs w) ++ " # "))), w).
Proof.
  intros Ha Hb. cbn [start]. unfold prompt.
  destruct (writable w (prefix ++ current_path (vfs w) ++ " # ")); [|done].
  assert (PyStr.strip_ws (a ++ "exit" ++ b) = "exit") as ->.
  { unfold PyStr.strip_ws, PyStr.strip. rewrite lstrip_all_space by done.
    change (PyStr.lstrip PyStr.is_space ("exit" ++ b)) with ("exit" ++ b).
    by rewrite rstrip_all_space. }
  by rewrite decide_True.
Qed.

Lemma start_exit_padded_witness :
  all_space "  " = true
  ∧ all_space " " = true
  ∧ start quoted EmptyString (("  " ++ "exit" ++ " ") :: [ "ls" ]) test_world
    = (Ok tt,
       emit (Prompted (EmptyString ++ current_path (vfs test_world) ++ " # "))
         test_world).
Proof.
  split; [reflexivity|]. split; [reflexivity|].
  exact (start_exit_padded quoted EmptyString "  " " " [ "ls" ] test_world
           eq_refl eq_refl).
Defined.

(** A prefix the ASCII terminal cannot encode ends the loop at the
    first prompt. *)
Example start_prompt_on_ascii :
  start quoted e_acute [ "exit" ] ascii_world
  = (Raise (UnicodeEncodeError "'ascii' codec can't encode character"),
     ascii_world).
Proof. vm_compute. reflexivity. Qed.

(** X21: in a freshly loaded archive [change_dir] takes one name at a
    time: an argument with a slash in it, [/] and [dir/sub] included, is
    refused with [FileNotFoundError] and the object stays as it was. *)
Theorem change_dir_rejects_paths path z v arg :
  new_vfs path z = Ok v →
  slash_free arg = false →
  change_dir arg v
  = (Raise (FileNotFoundError ("No such directory: " ++ arg)), v).
Proof.
  intros Hnew Hslash. pose proof (new_vfs_root _ _ _ Hnew) as Hroot.
  unfold change_dir.
  rewrite decide_False by (intros ->; discriminate Hslash).
  rewrite (list_dir_resolved v (fs v)) by by apply resolve_root.
  rewrite decide_False; [done|].
  intros Hin%elem_of_listing.
  apply (new_vfs_root_key_slash_free _ _ _ _ Hnew) in Hin. congruence.
Qed.

Lemma change_dir_rejects_paths_witness :
  new_vfs "VirtualDevice.zip" nested_archive = Ok nested_vfs
  ∧ slash_free "a/b" = false
  ∧ change_dir "a/b" nested_vfs
    = (Raise (FileNotFoundError ("No such directory: " ++ "a/b")), nested_vfs).
Proof.
  assert (new_vfs "VirtualDevice.zip" nested_archive = Ok nested_vfs) as H
    by (vm_compute; reflexivity).
  split; [exact H|]. split; [reflexivity|].
  exact (change_dir_rejects_paths _ _ _ "a/b" H eq_refl).
Defined.
